(** * astrobase.hatsurveys.oldhatlc: the reader of old-format HAT light curves

    A shallow embedding of [oldhatlc.py] (module initialisation, the schema
    table [TEXTLC_OUTPUT_COLUMNS] and [read_hatlc]) together with the
    properties of the reader that the specification states.

    Conventions of the embedding.
    - A Python [str] is a [string]; a character stands for a code point
      below 256.
    - A Python exception is a constructor of [exn]; a computation that may
      raise has type [result A].
    - The file system, the decompressors and the FITS library are external:
      they are the variables of the section [Reader].
    - A Python [float] is an IEEE 754 binary64 value, a [spec_float]. *)

From Stdlib Require Import ZArith Ascii String List Lia.
From Stdlib Require Import Floats.SpecFloat.
From stdpp Require Import gmap strings list.

Local Open Scope Z_scope.

(** ** Exceptions *)

Inductive exn : Type :=
| IndexError
| ValueError
| KeyError (key : string)
| OSError
| ImportError
| ExternalError (what : string).

Inductive result (A : Type) : Type :=
| Ok (a : A)
| Raise (e : exn).
Arguments Ok {A} a.
Arguments Raise {A} e.

Definition bind {A B : Type} (m : result A) (k : A -> result B) : result B :=
  match m with
  | Ok a => k a
  | Raise e => Raise e
  end.

Declare Scope py_scope.
Delimit Scope py_scope with py.
Notation "'do' x <- m ; k" := (bind m (fun x => k))
  (at level 10, x name, m at level 100, k at level 200) : py_scope.
Notation "'do' x , y <- m ; k" := (bind m (fun '(x, y) => k))
  (at level 10, x name, y name, m at level 100, k at level 200) : py_scope.
Notation "'do' x , y , z <- m ; k" := (bind m (fun '(x, y, z) => k))
  (at level 10, x name, y name, z name, m at level 100, k at level 200)
  : py_scope.
Notation "'do' a , b , c , d , e , f <- m ; k" :=
  (bind m (fun '(a, b, c, d, e, f) => k))
  (at level 10, a name, b name, c name, d name, e name, f name,
   m at level 100, k at level 200) : py_scope.
Local Open Scope py_scope.

Definition raises {A : Type} (r : result A) : Prop :=
  match r with
  | Ok _ => False
  | Raise _ => True
  end.

Definition returns {A : Type} (r : result A) : bool :=
  match r with
  | Ok _ => true
  | Raise _ => false
  end.

Fixpoint mapM {A B : Type} (f : A -> result B) (l : list A) : result (list B) :=
  match l with
  | [] => Ok []
  | x :: l' => do y <- f x; do ys <- mapM f l'; Ok (y :: ys)
  end.

(** ** Python strings *)

Module Str.

Definition len (s : string) : nat := String.length s.

(** [s.startswith(p)] *)
Definition startswith (s p : string) : bool := String.prefix p s.

(** [sub in s] *)
Fixpoint contains (sub s : string) : bool :=
  String.prefix sub s ||
  match s with
  | EmptyString => false
  | String _ s' => contains sub s'
  end.

(** [c in chars], for one character *)
Fixpoint mem (c : ascii) (chars : string) : bool :=
  match chars with
  | EmptyString => false
  | String d chars' => Ascii.eqb c d || mem c chars'
  end.

(** [str.isspace] on one character: the white space of [str.split()] and
    [str.strip()] *)
Definition is_space (c : ascii) : bool :=
  let n := nat_of_ascii c in
  ((9 <=? n) && (n <=? 13) || (28 <=? n) && (n <=? 32)
   || (n =? 133) || (n =? 160))%nat.

Fixpoint lstrip (f : ascii -> bool) (s : string) : string :=
  match s with
  | EmptyString => EmptyString
  | String c s' => if f c then lstrip f s' else s
  end.

Fixpoint rstrip (f : ascii -> bool) (s : string) : string :=
  match s with
  | EmptyString => EmptyString
  | String c s' =>
      match rstrip f s' with
      | EmptyString => if f c then EmptyString else String c EmptyString
      | r => String c r
      end
  end.

Definition strip_with (f : ascii -> bool) (s : string) : string :=
  rstrip f (lstrip f s).

(** [s.strip(chars)]: every leading and trailing character that occurs in
    [chars] is removed *)
Definition strip_chars (chars s : string) : string :=
  strip_with (fun c => mem c chars) s.

(** [s.strip()] *)
Definition strip (s : string) : string := strip_with is_space s.

(** [s.split(sep)] for a non-empty [sep]; [skip] counts the characters of
    a separator that has been recognised and is still to be passed over. *)
Fixpoint split_from (sep : string) (skip : nat) (s : string) : list string :=
  match s with
  | EmptyString => [EmptyString]
  | String c s' =>
      match skip with
      | S k => split_from sep k s'
      | O =>
          if String.prefix sep s
          then EmptyString :: split_from sep (String.length sep - 1) s'
          else match split_from sep O s' with
               | piece :: pieces => String c piece :: pieces
               | [] => [String c EmptyString]
               end
      end
  end.

Definition split (sep s : string) : list string := split_from sep O s.

(** [s.split()]: the maximal runs of characters that are not white space *)
Fixpoint split_ws_from (cur : option string) (s : string) : list string :=
  match s with
  | EmptyString => option_list (String.rev <$> cur)
  | String c s' =>
      if is_space c
      then option_list (String.rev <$> cur) ++ split_ws_from None s'
      else split_ws_from (Some (String c (default EmptyString cur))) s'
  end.

Definition split_ws (s : string) : list string := split_ws_from None s.

(** [sep.join(l)] *)
Fixpoint join (sep : string) (l : list string) : string :=
  match l with
  | [] => EmptyString
  | [x] => x
  | x :: l' => x +:+ sep +:+ join sep l'
  end.

(** [os.path.basename]: what follows the last slash *)
Fixpoint after_last_slash (cand p : string) : string :=
  match p with
  | EmptyString => cand
  | String c p' =>
      if Ascii.eqb c "/" then after_last_slash p' p'
      else after_last_slash cand p'
  end.

Definition basename (p : string) : string := after_last_slash p p.

End Str.

(** ** Python numbers: [int(s)] and [float(s)] *)

Module Num.

(** White space that [int] and [float] accept around a literal. *)
Definition is_space (c : ascii) : bool :=
  let n := nat_of_ascii c in
  ((9 <=? n) && (n <=? 13) || (n =? 32) || (n =? 133) || (n =? 160))%nat.

Definition is_digit (c : ascii) : bool :=
  let n := nat_of_ascii c in ((48 <=? n) && (n <=? 57))%nat.

Definition digit_val (c : ascii) : N := N_of_ascii c - 48.

(** Underscores are legal between two digits only and are dropped;
    [prev] is the character before [s], if any. *)
Fixpoint drop_underscores (prev : option ascii) (s : string) : option string :=
  match s with
  | EmptyString =>
      match prev with
      | Some "_"%char => None
      | _ => Some EmptyString
      end
  | String c s' =>
      if Ascii.eqb c "_"
      then match prev with
           | Some p => if is_digit p then drop_underscores (Some c) s' else None
           | None => None
           end
      else match prev with
           | Some "_"%char =>
               if is_digit c then String c <$> drop_underscores (Some c) s'
               else None
           | _ => String c <$> drop_underscores (Some c) s'
           end
  end.

Definition parse_sign (s : string) : bool * string :=
  match s with
  | String "-" r => (true, r)
  | String "+" r => (false, r)
  | _ => (false, s)
  end.

(** The longest prefix of digits, and what follows it. *)
Fixpoint span_digits (s : string) : string * string :=
  match s with
  | EmptyString => (EmptyString, EmptyString)
  | String c s' =>
      if is_digit c
      then let '(ds, r) := span_digits s' in (String c ds, r)
      else (EmptyString, s)
  end.

Fixpoint value_of_digits (acc : N) (ds : string) : N :=
  match ds with
  | EmptyString => acc
  | String c ds' => value_of_digits (10 * acc + digit_val c) ds'
  end.

Definition cond_opp (neg : bool) (z : Z) : Z := if neg then - z else z.

(** [int(s)], base ten *)
Definition int (s : string) : result Z :=
  match drop_underscores None (Str.strip_with is_space s) with
  | None => Raise ValueError
  | Some t =>
      let '(neg, body) := parse_sign t in
      match span_digits body with
      | (String c ds, EmptyString) =>
          Ok (cond_opp neg (Z.of_N (value_of_digits 0 (String c ds))))
      | _ => Raise ValueError
      end
  end.

Definition lower (c : ascii) : ascii :=
  let n := nat_of_ascii c in
  if ((65 <=? n) && (n <=? 90))%nat then ascii_of_nat (n + 32) else c.

Fixpoint lowercase (s : string) : string :=
  match s with
  | EmptyString => EmptyString
  | String c s' => String (lower c) (lowercase s')
  end.

Definition binary64 (neg : bool) (m : positive) (e : Z) : spec_float :=
  binary_round 53 1024 neg m e.

(** The binary64 value nearest to [(-1)^neg * m * 10^e] (ties to even). *)
Definition float_of_decimal (neg : bool) (m : N) (e : Z) : spec_float :=
  match m with
  | N0 => S754_zero neg
  | Npos p =>
      if 0 <=? e
      then binary64 neg (p * Z.to_pos (10 ^ e)) 0
      else SFdiv 53 1024 (S754_finite neg p 0)
                         (S754_finite false (Z.to_pos (10 ^ (- e))) 0)
  end.

(** The exponent part of a literal: [Some (e, rest)] when [s] starts with
    a well-formed exponent. *)
Definition parse_exponent (s : string) : option (Z * string) :=
  match s with
  | String c r =>
      if Ascii.eqb (lower c) "e"
      then let '(neg, r') := parse_sign r in
           match span_digits r' with
           | (String d ds, rest) =>
               Some (cond_opp neg (Z.of_N (value_of_digits 0 (String d ds))), rest)
           | _ => None
           end
      else None
  | EmptyString => None
  end.

Definition parse_decimal (neg : bool) (body : string) : result spec_float :=
  let '(ip, r1) := span_digits body in
  let '(fp, r2) :=
    match r1 with
    | String "." r => span_digits r
    | _ => (EmptyString, r1)
    end in
  match ip +:+ fp with
  | EmptyString => Raise ValueError
  | ds =>
      let '(ex, r3) :=
        match parse_exponent r2 with
        | Some (e, rest) => (e, rest)
        | None => (0, r2)
        end in
      match r3 with
      | EmptyString =>
          Ok (float_of_decimal neg (value_of_digits 0 ds)
                               (ex - Z.of_nat (String.length fp)))
      | _ => Raise ValueError
      end
  end.

(** [float(s)] *)
Definition float (s : string) : result spec_float :=
  match drop_underscores None (Str.strip_with is_space s) with
  | None => Raise ValueError
  | Some t =>
      let '(neg, body) := parse_sign t in
      let word := lowercase body in
      if String.eqb word "inf" || String.eqb word "infinity"
      then Ok (S754_infinity neg)
      else if String.eqb word "nan" then Ok S754_nan
      else parse_decimal neg body
  end.

End Num.

(** ** Python values and sequence operations *)

Inductive scalar : Type :=
| PyStr (s : string)
| PyInt (z : Z)
| PyFloat (f : spec_float).

(** The values stored in the returned dictionary: a scalar, a list of
    scalars, or the result of a call of [numpy.array]. The [numpy] library
    is not part of the program, and its arrays are kept as the calls that
    build them: [NpArray l] is the array that [numpy.array(l)] returns for
    the list [l]. The list is the argument of the call, not the content of
    the array: the array has one element for each element of [l], but the
    type and the stored form of its elements are chosen by [numpy] (a list
    of [int] values that do not all fit 64 bits does not give an array of
    64-bit integers, and the [str] elements of an array are read back
    without their final NUL characters). *)
Inductive pyval : Type :=
| Scalar (x : scalar)
| PyList (l : list scalar)
| NpArray (l : list scalar).

(** [l[i]] *)
Definition getitem {A : Type} (l : list A) (i : nat) : result A :=
  match l !! i with
  | Some x => Ok x
  | None => Raise IndexError
  end.

(** [l[-1]] *)
Definition getlast {A : Type} (l : list A) : result A :=
  match last l with
  | Some x => Ok x
  | None => Raise IndexError
  end.

(** [l.index(x)] *)
Fixpoint index_of (x : string) (l : list string) : result nat :=
  match l with
  | [] => Raise ValueError
  | y :: l' => if String.eqb y x then Ok O else do i <- index_of x l'; Ok (S i)
  end.

(** [l[a:b]] for indices that are not negative *)
Definition slice {A : Type} (l : list A) (a b : nat) : list A :=
  drop a (take b l).

(** [a, b = l] and its longer forms *)
Definition unpack2 {A : Type} (l : list A) : result (A * A) :=
  match l with
  | [a; b] => Ok (a, b)
  | _ => Raise ValueError
  end.

Definition unpack3 {A : Type} (l : list A) : result (A * A * A) :=
  match l with
  | [a; b; c] => Ok (a, b, c)
  | _ => Raise ValueError
  end.

Definition unpack6 {A : Type} (l : list A) : result (A * A * A * A * A * A) :=
  match l with
  | [a; b; c; d; e; f] => Ok (a, b, c, d, e, f)
  | _ => Raise ValueError
  end.

(** The first element of every row and what is left of every row; [None]
    as soon as one row is exhausted. *)
Fixpoint heads_tails {A : Type} (rows : list (list A))
  : option (list A * list (list A)) :=
  match rows with
  | [] => Some ([], [])
  | [] :: _ => None
  | (x :: r) :: rows' =>
      match heads_tails rows' with
      | Some (hs, ts) => Some (x :: hs, r :: ts)
      | None => None
      end
  end.

(** [first] is the first of [rows]: one tuple is produced for each of its
    elements, until some row is exhausted. *)
Fixpoint zip_rows {A : Type} (first : list A) (rows : list (list A))
  : list (list A) :=
  match first with
  | [] => []
  | _ :: first' =>
      match heads_tails rows with
      | Some (hs, ts) => hs :: zip_rows first' ts
      | None => []
      end
  end.

(** [zip] applied to the rows as separate arguments, as a list *)
Definition zip_star {A : Type} (rows : list (list A)) : list (list A) :=
  match rows with
  | [] => []
  | r :: _ => zip_rows r rows
  end.

(** ** Module initialisation (lines 29-43)

    [HAVEPYFITS] is computed when the module is imported. The import in the
    [except] clause is not itself guarded: when it fails, the [finally]
    clause prints and the exception leaves the module. *)

Definition no_pyfits_message : string :=
  "no pyfits module found (try pip install pyfits?). " +:+
  "won't be able to read FITS format HAT LCs".

(** The output printed and the value of [HAVEPYFITS] (or the exception
    that ends the import), from whether [import pyfits] and
    [from astropy.io import fits] succeed. *)
Definition import_oldhatlc (pyfits_installed astropy_installed : bool)
  : list string * result bool :=
  let HAVEPYFITS := false in
  if pyfits_installed then ([], Ok true)
  else if astropy_installed then ([], Ok true)
  else
    (* finally: *)
    (if negb HAVEPYFITS then [no_pyfits_message] else [], Raise ImportError).

(** ** The schema table (lines 49-178) *)

Inductive coercion : Type := to_float | to_str | to_int.

Record colspec : Type := {
  description : string;
  text_format : string;
  fits_code : string;
  coerce : coercion
}.

Definition TEXTLC_OUTPUT_COLUMNS : gmap string colspec :=
  let colspec := Build_colspec in
  list_to_map [
    ("BJD", colspec "time in Baryocentric Julian Date"
       "%20.7f" "D" to_float);
    ("MJD", colspec "time in Modified Julian Date"
       "%20.7f" "D" to_float);
    ("HJD", colspec "time in Heliocentric Julian Date"
       "%20.7f" "D" to_float);
    ("RJD", colspec "time in Reduced Julian Date"
       "%20.7f" "D" to_float);
    ("FJD", colspec "time in Full Julian Date"
       "%20.7f" "D" to_float);
    ("XCC", colspec "x coordinate on CCD"
       "%.1f" "E" to_float);
    ("YCC", colspec "y coordinate on CCD"
       "%.1f" "E" to_float);
    ("IM1", colspec "instrumental lightcurve magnitude (aperture 1)"
       "%12.5f" "D" to_float);
    ("IE1", colspec "instrumental lightcurve measurement error (aperture 1)"
       "%12.5f" "D" to_float);
    ("IQ1", colspec "instrumental lightcurve quality flag (aperture 1)"
       "%s" "1A" to_str);
    ("IM2", colspec "instrumental lightcurve magnitude (aperture 2)"
       "%12.5f" "D" to_float);
    ("IE2", colspec "instrumental lightcurve measurement error (aperture 2)"
       "%12.5f" "D" to_float);
    ("IQ2", colspec "instrumental lightcurve quality flag (aperture 2)"
       "%s" "1A" to_str);
    ("IM3", colspec "instrumental lightcurve magnitude (aperture 3)"
       "%12.5f" "D" to_float);
    ("IE3", colspec "instrumental lightcurve measurement error (aperture 3)"
       "%12.5f" "D" to_float);
    ("IQ3", colspec "instrumental lightcurve quality flag (aperture 3)"
       "%s" "1A" to_str);
    ("RM1", colspec "reduced lightcurve magnitude (aperture 1)"
       "%12.5f" "D" to_float);
    ("RM2", colspec "reduced lightcurve magnitude (aperture 2)"
       "%12.5f" "D" to_float);
    ("RM3", colspec "reduced lightcurve magnitude (aperture 3)"
       "%12.5f" "D" to_float);
    ("EP1", colspec "EPD lightcurve magnitude (aperture 1)"
       "%12.5f" "D" to_float);
    ("EP2", colspec "EPD lightcurve magnitude (aperture 2)"
       "%12.5f" "D" to_float);
    ("EP3", colspec "EPD lightcurve magnitude (aperture 3)"
       "%12.5f" "D" to_float);
    ("TF1", colspec "TFA lightcurve magnitude (aperture 1)"
       "%12.5f" "D" to_float);
    ("TF2", colspec "TFA lightcurve magnitude (aperture 2)"
       "%12.5f" "D" to_float);
    ("TF3", colspec "TFA lightcurve magnitude (aperture 3)"
       "%12.5f" "D" to_float);
    ("RSTF", colspec "HAT station and frame number of this LC point"
       "%s" "10A" to_str);
    ("RSTFC", colspec "HAT station, frame number, and CCD of this LC point"
       "%s" "10A" to_str);
    ("ESTF", colspec "HAT station and frame number of this LC point"
       "%s" "10A" to_str);
    ("ESTFC", colspec "HAT station, frame number, and CCD of this LC point"
       "%s" "10A" to_str);
    ("TSTF", colspec "HAT station and frame number of this LC point"
       "%s" "10A" to_str);
    ("TSTFC", colspec "HAT station, frame number, and CCD of this LC point"
       "%s" "10A" to_str);
    ("FSV", colspec "PSF fit S value"
       "%12.5f" "E" to_float);
    ("FDV", colspec "PSF fit D value"
       "%12.5f" "E" to_float);
    ("FKV", colspec "PSF fit K value"
       "%12.5f" "E" to_float);
    ("FLT", colspec "filter used for this LC point"
       "%s" "1A" to_str);
    ("FLD", colspec "observed HAT field"
       "%s" "15A" to_str);
    ("CCD", colspec "CCD taking this LC point "
       "%s" "I" to_int);
    ("CFN", colspec "CCD frame number"
       "%s" "I" to_int);
    ("STF", colspec "HAT station taking this LC point"
       "%s" "I" to_int);
    ("BGV", colspec "Background value"
       "%12.5f" "E" to_float);
    ("BGE", colspec "Background error"
       "%12.5f" "E" to_float);
    ("IHA", colspec "Hour angle of object [hr]"
       "%12.5f" "E" to_float);
    ("IZD", colspec "Zenith distance of object [deg]"
       "%12.5f" "E" to_float);
    ("NET", colspec "HAT network responsible for this LC point"
       "%s" "2A" to_str);
    ("EXP", colspec "exposure time for this LC point [seconds]"
       "%12.3f" "E" to_float);
    ("CAM", colspec "camera taking the exposure for this LC point"
       "%s" "2A" to_str);
    ("TEL", colspec "telescope taking the exposure for this LC point"
       "%s" "2A" to_str);
    ("XIC", colspec "image-subtraction X coordinate on CCD"
       "%.1f" "E" to_float);
    ("YIC", colspec "image-subtraction Y coordinate on CCD"
       "%.1f" "E" to_float);
    ("IRM1", colspec "image-subtraction lightcurve reduced magnitude (aperture 1)"
       "%12.5f" "D" to_float);
    ("IRE1", colspec "image-subtraction lightcurve measurement error (aperture 1)"
       "%12.5f" "D" to_float);
    ("IRQ1", colspec "image-subtraction lightcurve quality flag (aperture 1)"
       "%s" "1A" to_str);
    ("IRM2", colspec "image-subtraction lightcurve reduced magnitude (aperture 2)"
       "%12.5f" "D" to_float);
    ("IRE2", colspec "image-subtraction lightcurve measurement error (aperture 2)"
       "%12.5f" "D" to_float);
    ("IRQ2", colspec "image-subtraction lightcurve quality flag (aperture 2)"
       "%s" "1A" to_str);
    ("IRM3", colspec "image-subtraction lightcurve reduced magnitude (aperture 3)"
       "%12.5f" "D" to_float);
    ("IRE3", colspec "image-subtraction lightcurve measurement error (aperture 3)"
       "%12.5f" "D" to_float);
    ("IRQ3", colspec "image-subtraction lightcurve quality flag (aperture 3)"
       "%s" "1A" to_str);
    ("IEP1", colspec "image-subtraction EPD lightcurve magnitude (aperture 1)"
       "%12.5f" "D" to_float);
    ("IEP2", colspec "image-subtraction EPD lightcurve magnitude (aperture 2)"
       "%12.5f" "D" to_float);
    ("IEP3", colspec "image-subtraction EPD lightcurve magnitude (aperture 3)"
       "%12.5f" "D" to_float);
    ("ITF1", colspec "image-subtraction TFA lightcurve magnitude (aperture 1)"
       "%12.5f" "D" to_float);
    ("ITF2", colspec "image-subtraction TFA lightcurve magnitude (aperture 2)"
       "%12.5f" "D" to_float);
    ("ITF3", colspec "image-subtraction TFA lightcurve magnitude (aperture 3)"
       "%12.5f" "D" to_float)
  ].

Global Arguments TEXTLC_OUTPUT_COLUMNS : simpl never.

(** Calling the coercion of the fourth field on a string *)
Definition apply_coercion (c : coercion) (x : string) : result scalar :=
  match c with
  | to_float => do f <- Num.float x; Ok (PyFloat f)
  | to_str => Ok (PyStr x)
  | to_int => do z <- Num.int x; Ok (PyInt z)
  end.

(** [TEXTLC_OUTPUT_COLUMNS[col][3](x)] *)
Definition schema_coerce (col x : string) : result scalar :=
  match TEXTLC_OUTPUT_COLUMNS !! col with
  | Some spec => apply_coercion (coerce spec) x
  | None => Raise (KeyError col)
  end.


(** ** The delimited-text decoder (lines 239-310) *)

Definition LF : string := String "010" EmptyString.

Definition is_comment (x : string) : bool := Str.startswith x "#".

(** Lines 243 and 256-258: the stripped, non-empty comment lines *)
Definition metadata_lines (lcflines : list string) : list string :=
  let objectdata := List.filter is_comment lcflines in
  let objectdata := map (Str.strip_chars "#") objectdata in
  let objectdata := map Str.strip objectdata in
  List.filter (fun x => (0 <? Str.len x)%nat) objectdata.

(** Lines 244-245: the lines that hold a detection *)
Definition data_lines (lcflines : list string) : list string :=
  let objectlc := List.filter (fun x => negb (is_comment x)) lcflines in
  List.filter (fun x => (1 <? Str.len x)%nat) objectlc.

(** Lines 247-250: the fields of every data line *)
Definition split_rows (lcfname : string) (objectlc : list string)
  : list (list string) :=
  if Str.contains ".csv" lcfname
  then map (Str.split ",") objectlc
  else map Str.split_ws objectlc.

(** [float(s.split(' = ')[-1])] *)
Definition float_after_equals (s : string) : result spec_float :=
  do t <- getlast (Str.split " = " s);
  Num.float t.

(** [float(s.split(' = ')[-1].strip(' deg'))] *)
Definition degrees_after_equals (s : string) : result spec_float :=
  do t <- getlast (Str.split " = " s);
  Num.float (Str.strip_chars " deg" t).

(** The local variables that lines 260-274 bind *)
Record objectinfo : Type := {
  hatid : string;
  twomassid : string;
  ra : spec_float;
  dec : spec_float;
  mags : list spec_float;
  ndet : Z;
  hatstations : string
}.

(** Lines 260-274: the five header lines at fixed positions *)
Definition parse_objectinfo (objectdata : list string) : result objectinfo :=
  do line0 <- getitem objectdata 0;
  do hatid, twomassid <- unpack2 (Str.split " - " line0);
  do line1 <- getitem objectdata 1;
  do ra, dec <- unpack2 (Str.split ", " line1);
  do ra <- degrees_after_equals ra;
  do dec <- degrees_after_equals dec;
  do line2 <- getitem objectdata 2;
  do vmag, rmag, imag, jmag, hmag, kmag <- unpack6 (Str.split ", " line2);
  do vmag <- float_after_equals vmag;
  do rmag <- float_after_equals rmag;
  do imag <- float_after_equals imag;
  do jmag <- float_after_equals jmag;
  do hmag <- float_after_equals hmag;
  do kmag <- float_after_equals kmag;
  do line3 <- getitem objectdata 3;
  do ndet <- (do t <- getlast (Str.split ": " line3); Num.int t);
  do line4 <- getitem objectdata 4;
  do hatstations <- getlast (Str.split ": " line4);
  Ok {| hatid := hatid; twomassid := twomassid; ra := ra; dec := dec;
        mags := [vmag; rmag; imag; jmag; hmag; kmag]; ndet := ndet;
        hatstations := hatstations |}.

(** Lines 283-287: the column code of one legend line *)
Definition column_name (line : string) : result string :=
  do colnum, colname, coldesc <- unpack3 (Str.split " - " line);
  Ok colname.

(** Lines 276-287: the filter block, still with its marker line, and the
    column codes of the legend *)
Definition parse_sections (objectdata : list string)
  : result (list string * list string) :=
  do filterhead_ind <- index_of "Filters used:" objectdata;
  do columnhead_ind <- index_of "Columns:" objectdata;
  let filters := slice objectdata filterhead_ind columnhead_ind in
  let columndefs := drop (columnhead_ind + 1) objectdata in
  do columns <- mapM column_name columndefs;
  Ok (filters, columns).

(** Lines 292-297: the loop over [enumerate(columns)], from index [ind].
    [values] is the list built by the comprehension of lines 296-297,
    and the entry of the dictionary is [numpy.array] applied to it. *)
Fixpoint write_columns (objectlc : list (list string)) (ind : nat)
    (columns : list string) (lcdict : gmap string pyval)
  : result (gmap string pyval) :=
  match columns with
  | [] => Ok lcdict
  | col :: columns' =>
      do raw <- getitem objectlc ind;
      do values <- mapM (schema_coerce col) raw;
      write_columns objectlc (S ind) columns' (<[col := NpArray values]> lcdict)
  end.

(** Lines 300-308: the metadata entries of the dictionary *)
Definition write_metadata (info : objectinfo) (filters columns : list string)
    (lcdict : gmap string pyval) : gmap string pyval :=
  let lcdict := <["hatid" := Scalar (PyStr (hatid info))]> lcdict in
  let lcdict :=
    <["twomassid" := Scalar (PyStr (Str.strip_chars "2MASS J" (twomassid info)))]>
      lcdict in
  let lcdict := <["ra" := Scalar (PyFloat (ra info))]> lcdict in
  let lcdict := <["dec" := Scalar (PyFloat (dec info))]> lcdict in
  let lcdict := <["mags" := PyList (map PyFloat (mags info))]> lcdict in
  let lcdict := <["ndet" := Scalar (PyInt (ndet info))]> lcdict in
  let lcdict :=
    <["hatstations" := PyList (map PyStr (Str.split ", " (hatstations info)))]>
      lcdict in
  let lcdict := <["filters" := PyList (map PyStr (drop 1 filters))]> lcdict in
  <["cols" := PyList (map PyStr columns)]> lcdict.

(** Lines 253-308 on the split rows [objectlc] of line 250 and on the
    metadata lines [objectdata] of line 258 *)
Definition decode_table (objectlc : list (list string))
    (objectdata : list string) : result (gmap string pyval) :=
  let objectlc := zip_star objectlc in
  do info <- parse_objectinfo objectdata;
  do filters, columns <- parse_sections objectdata;
  do lcdict <- write_columns objectlc 0 columns ∅;
  Ok (write_metadata info filters columns lcdict).

(** The keys of lines 300-308 *)
Definition metadata_keys : list string :=
  ["hatid"; "twomassid"; "ra"; "dec"; "mags"; "ndet"; "hatstations";
   "filters"; "cols"].

(** The decoder on the lines of the file *)
Definition decode_lines (lcfname : string) (lcflines : list string)
  : result (gmap string pyval) :=
  decode_table (split_rows lcfname (data_lines lcflines))
               (metadata_lines lcflines).

(** The decoder on the decoded content of the file *)
Definition read_text_lc (lcfname content : string) : result (gmap string pyval) :=
  decode_lines lcfname (Str.split LF content).

(** ** The reader *)

Inductive compression : Type := Gzip | Bz2 | Plain.

(** What the FITS library gives for an opened file (lines 207-210): the
    cards of the primary header, and the names and the data of the columns
    of the first extension. A lookup that raises [KeyError] is [None]. *)
Record hdulist : Type := {
  header_card : string -> option scalar;
  column_names : list string;
  column_data : string -> option (list scalar)
}.

Definition cant_read_message (lcfname : string) : string :=
  "can't read " +:+ lcfname +:+ " since we don't have the pyfits module".

Section Reader.

(** The open file object [lcf] *)
Context {handle : Type}.
(** [gzip.open(hatlc,'rb')], [bz2.BZ2File(hatlc,'rb')], [open(hatlc,'rb')] *)
Variable open_stream : compression -> string -> result handle.
(** [lcf.read().decode()] *)
Variable read_decode : handle -> result string.
(** [pyfits.open(lcf)] and the accesses of lines 208-210 *)
Variable pyfits_open : handle -> result hdulist.

(** [objectinfo[key]] *)
Definition card (hdul : hdulist) (key : string) : result scalar :=
  match header_card hdul key with
  | Some v => Ok v
  | None => Raise (KeyError key)
  end.

(** Lines 216-217: each entry is [numpy.array] applied to the column of
    the table *)
Fixpoint copy_columns (hdul : hdulist) (lccols : list string)
    (lcdict : gmap string pyval) : result (gmap string pyval) :=
  match lccols with
  | [] => Ok lcdict
  | col :: lccols' =>
      match column_data hdul col with
      | Some values =>
          copy_columns hdul lccols' (<[col := NpArray values]> lcdict)
      | None => Raise (KeyError col)
      end
  end.

(** Lines 207-230: the binary-table decoder *)
Definition read_fits_lc (lcf : handle) : result (gmap string pyval) :=
  do hdul <- pyfits_open lcf;
  let lccols := column_names hdul in
  do lcdict <- copy_columns hdul lccols ∅;
  do v <- card hdul "hatid"; let lcdict := <["hatid" := Scalar v]> lcdict in
  do v <- card hdul "2massid"; let lcdict := <["twomassid" := Scalar v]> lcdict in
  do v <- card hdul "ra"; let lcdict := <["ra" := Scalar v]> lcdict in
  do v <- card hdul "dec"; let lcdict := <["dec" := Scalar v]> lcdict in
  do ms <- mapM (card hdul) ["vmag"; "rmag"; "imag"; "jmag"; "hmag"; "kmag"];
  let lcdict := <["mags" := PyList ms]> lcdict in
  do v <- card hdul "ndet"; let lcdict := <["ndet" := Scalar v]> lcdict in
  do v <- card hdul "hats"; let lcdict := <["hatstations" := Scalar v]> lcdict in
  do v <- card hdul "filters"; let lcdict := <["filters" := Scalar v]> lcdict in
  Ok (<["columns" := PyList (map PyStr lccols)]> lcdict).

(** Lines 198-203: the decompressor is chosen from the file name *)
Definition sniff_compression (lcfname : string) : compression :=
  if Str.contains ".gz" lcfname then Gzip
  else if Str.contains ".bz2" lcfname then Bz2
  else Plain.

(** [read_hatlc(hatlc)]: what is printed, and the value returned ([None]
    for Python's [None]) or the exception raised. [HAVEPYFITS] is the
    module's global. *)
Definition read_hatlc (HAVEPYFITS : bool) (hatlc : string)
  : list string * result (option (gmap string pyval)) :=
  let lcfname := Str.basename hatlc in
  match open_stream (sniff_compression lcfname) hatlc with
  | Raise e => ([], Raise e)
  | Ok lcf =>
      if Str.contains ".fits" lcfname && HAVEPYFITS then
        ([], do lcdict <- read_fits_lc lcf; Ok (Some lcdict))
      else if Str.contains ".fits" lcfname && negb HAVEPYFITS then
        ([cant_read_message lcfname], Ok None)
      else if Str.contains ".csv" lcfname || Str.contains ".hatlc" lcfname then
        ([], do content <- read_decode lcf;
             do lcdict <- read_text_lc lcfname content;
             Ok (Some lcdict))
      else ([], Ok None)
  end.

(** Importing the module and then calling [read_hatlc(hatlc)] *)
Definition import_and_read (pyfits_installed astropy_installed : bool)
    (hatlc : string) : list string * result (option (gmap string pyval)) :=
  match import_oldhatlc pyfits_installed astropy_installed with
  | (printed, Raise e) => (printed, Raise e)
  | (printed, Ok HAVEPYFITS) =>
      let '(printed', r) := read_hatlc HAVEPYFITS hatlc in
      (printed ++ printed', r)
  end.

End Reader.

(** ** Sample files and a file system that holds one file *)

(** The text of a file from its lines, every line ended by a line feed *)
Definition file_of_lines (lines : list string) : string :=
  Str.join LF (lines ++ [EmptyString]).

(** Every path opens, with whatever decompressor, and reads as [content];
    it is not a FITS file. *)
Section OneFile.
Variable content : string.
Definition open_one (c : compression) (path : string) : result unit := Ok tt.
Definition read_one (lcf : unit) : result string := Ok content.
Definition fits_one (lcf : unit) : result hdulist :=
  Raise (ExternalError "not a FITS file").
Definition read_one_file (HAVEPYFITS : bool) (hatlc : string)
  : list string * result (option (gmap string pyval)) :=
  read_hatlc open_one read_one fits_one HAVEPYFITS hatlc.
End OneFile.

(** The entry of [key] in the dictionary that a call returned *)
Definition returned_entry
    (r : list string * result (option (gmap string pyval))) (key : string)
  : option pyval :=
  match snd r with
  | Ok (Some lcdict) => lcdict !! key
  | _ => None
  end.

(** The file of the concrete scenario of the specification *)
Definition scenario_lines : list string := [
  "# HAT-123-4567 - 2MASS J01020304+0506070";
  "# RA = 10.123 deg, Dec = 20.456 deg";
  "# Vmag = 11.0, Rmag = 10.5, Imag = 10.2, Jmag = 9.8, Hmag = 9.5, Kmag = 9.3";
  "# NDET: 2";
  "# HS: G1,G2";
  "# Filters used:";
  "# (header)";
  "# r";
  "# Columns:";
  "# 1 - BJD - time";
  "# 2 - IM1 - mag";
  "2456000.5 12.345";
  "2456000.6 12.355"
].

Definition scenario_content : string := file_of_lines scenario_lines.

Definition scenario_record : gmap string pyval :=
  match decode_table (map Str.split_ws (data_lines (Str.split LF scenario_content)))
                     (metadata_lines (Str.split LF scenario_content)) with
  | Ok lcdict => lcdict
  | Raise _ => ∅
  end.

(** A comma-separated file with two filters, three detections announced
    and two present *)
Definition two_filter_lines : list string := [
  "# HAT-200-0001234 - 2MASS J22334455+1122332";
  "# RA = 338.4 deg, Dec = 11.4 deg";
  "# Vmag = 12.1, Rmag = 11.8, Imag = 11.5, Jmag = 10.9, Hmag = 10.6, Kmag = 10.5";
  "# NDET: 3";
  "# HS: HS-1, HS-3";
  "# Filters used:";
  "# g";
  "# r";
  "# Columns:";
  "# 1 - BJD - time";
  "# 2 - RM1 - magnitude";
  "# 3 - FLT - filter";
  "2455000.25,11.92,g";
  "2455000.75,11.87,r"
].

Definition two_filter_content : string := file_of_lines two_filter_lines.

(** The number of elements of an array entry: [numpy.array(l)] has as many
    elements as the list [l] of scalars *)
Definition array_length (v : option pyval) : option nat :=
  match v with
  | Some (NpArray l) => Some (length l)
  | _ => None
  end.

(** A whitespace-separated file whose legend names four columns and whose
    data lines have five and four fields *)
Definition ragged_lines : list string := [
  "# HAT-300-0004321 - 2MASS J03040506+0708091";
  "# RA = 46.02 deg, Dec = 7.13 deg";
  "# Vmag = 13.0, Rmag = 12.7, Imag = 12.4, Jmag = 11.9, Hmag = 11.6, Kmag = 11.5";
  "# NDET: 2";
  "# HS: HS-2";
  "# Filters used:";
  "# r";
  "# Columns:";
  "# 1 - BJD - time";
  "# 2 - IM1 - magnitude";
  "# 3 - IE1 - error";
  "# 4 - IQ1 - flag";
  "2455000.25 11.92 0.01 G 7";
  "2455000.75 11.87 0.02 G"
].

Definition ragged_content : string := file_of_lines ragged_lines.

(** The same file with a fifth column, CCD, in the legend *)
Definition ragged_wide_content : string :=
  file_of_lines (take 12 ragged_lines ++ ["# 5 - CCD - chip"]
                 ++ drop 12 ragged_lines).

(** The [i]-th field of every row, when every row has one *)
Fixpoint nth_fields {A : Type} (i : nat) (rows : list (list A))
  : option (list A) :=
  match rows with
  | [] => Some []
  | row :: rows' =>
      match row !! i, nth_fields i rows' with
      | Some x, Some xs => Some (x :: xs)
      | _, _ => None
      end
  end.

(** The number of columns that the legend names, 0 when it is malformed *)
Definition legend_width (objectdata : list string) : nat :=
  match parse_sections objectdata with
  | Ok (_, columns) => length columns
  | Raise _ => 0
  end.

(** The scenario file with a third column, XYZ, that the schema table
    does not have *)
Definition unknown_column_content : string :=
  file_of_lines (take 11 scenario_lines ++ ["# 3 - XYZ - unknown"]
                 ++ ["2456000.5 12.345 1"; "2456000.6 12.355 2"]).

(** A file with a complete header and no data line, whose legend has one
    code only, XYZ, that the schema table does not have *)
Definition unknown_column_alone_lines : list string := [
  "# HAT-400-0000007 - 2MASS J04050607+0809101";
  "# RA = 61.27 deg, Dec = 8.15 deg";
  "# Vmag = 10.0, Rmag = 9.9, Imag = 9.8, Jmag = 9.7, Hmag = 9.6, Kmag = 9.5";
  "# NDET: 0";
  "# HS: HS-4";
  "# Filters used:";
  "# r";
  "# Columns:";
  "# 1 - XYZ - unknown"
].

Definition unknown_column_alone_content : string :=
  file_of_lines unknown_column_alone_lines.

(** A file system whose FITS library reads every file as a table without
    columns and with the card [key] of the primary header equal to the
    string [key] *)
Definition fits_any (lcf : unit) : result hdulist :=
  Ok {| header_card := fun key => Some (PyStr key);
        column_names := [];
        column_data := fun _ => None |}.

(** The text decoder with the fields of a data line separated by commas *)
Definition decode_comma_text (content : string) : result (gmap string pyval) :=
  decode_table (map (Str.split ",") (data_lines (Str.split LF content)))
               (metadata_lines (Str.split LF content)).

(** The text decoder with the fields separated by runs of white space *)
Definition decode_whitespace_text (content : string)
  : result (gmap string pyval) :=
  decode_table (map Str.split_ws (data_lines (Str.split LF content)))
               (metadata_lines (Str.split LF content)).

(** ** Further definitions for the statements below *)

(** A string made of white space only *)
Fixpoint all_space (s : string) : bool :=
  match s with
  | EmptyString => true
  | String c s' => Str.is_space c && all_space s'
  end.

(** An old-format file with a complete header, a legend of one column and
    no data line *)
Definition no_data_lines : list string := [
  "# HAT-400-0000007 - 2MASS J04050607+0809101";
  "# RA = 61.27 deg, Dec = 8.15 deg";
  "# Vmag = 10.0, Rmag = 9.9, Imag = 9.8, Jmag = 9.7, Hmag = 9.6, Kmag = 9.5";
  "# NDET: 0";
  "# HS: HS-4";
  "# Filters used:";
  "# r";
  "# Columns:";
  "# 1 - BJD - time"
].

(** The keys that the binary-table decoder reads from the primary header,
    in the order of lines 219-227 *)
Definition fits_card_keys : list string :=
  ["hatid"; "2massid"; "ra"; "dec"; "vmag"; "rmag"; "imag"; "jmag"; "hmag";
   "kmag"; "ndet"; "hats"; "filters"].

(** The first of these keys that a header does not have *)
Definition first_missing_card (hdul : hdulist) : option string :=
  List.find (fun key => match header_card hdul key with
                        | Some _ => false
                        | None => true
                        end) fits_card_keys.

(** The keys of lines 219-228 in the record of a binary table *)
Definition fits_record_keys : list string :=
  ["hatid"; "twomassid"; "ra"; "dec"; "mags"; "ndet"; "hatstations";
   "filters"; "columns"].

(** A table with the columns BJD, XYZ and ra, and a header that has every
    card but those in [missing] *)
Definition sample_table (missing : list string) : hdulist :=
  {| header_card := fun key =>
       if bool_decide (key ∈ missing) then None
       else if bool_decide (key ∈ fits_card_keys)
            then Some (PyStr (key +:+ "-card"))
            else None;
     column_names := ["BJD"; "XYZ"; "ra"];
     column_data := fun col =>
       if bool_decide (col ∈ ["BJD"; "XYZ"; "ra"])
       then Some [PyStr (col +:+ "-0"); PyStr (col +:+ "-1")]
       else None |}.

Definition fits_sample (missing : list string) (lcf : unit) : result hdulist :=
  Ok (sample_table missing).

Definition sample_fits_columns : gmap string pyval :=
  match copy_columns (sample_table []) (column_names (sample_table [])) ∅ with
  | Ok lcdict => lcdict
  | Raise _ => ∅
  end.

Definition sample_fits_record : gmap string pyval :=
  match read_fits_lc (fits_sample []) tt with
  | Ok lcdict => lcdict
  | Raise _ => ∅
  end.

(** The header fields of a text file, empty when the header is malformed *)
Definition header_of (content : string) : objectinfo :=
  match parse_objectinfo (metadata_lines (Str.split LF content)) with
  | Ok info => info
  | Raise _ =>
      {| hatid := ""; twomassid := ""; ra := S754_zero false;
         dec := S754_zero false; mags := []; ndet := 0; hatstations := "" |}
  end.

(** The last character of a string *)
Fixpoint last_char (s : string) : option ascii :=
  match s with
  | EmptyString => None
  | String c EmptyString => Some c
  | String _ s' => last_char s'
  end.

(** Whether the binary type code, the text format and the coercion of an
    entry of the schema table agree: "D" and "E" with a float format and
    [float], "I" with "%s" and [int], a character code with "%s" and
    [str] *)
Definition entry_consistent (spec : colspec) : bool :=
  match coerce spec with
  | to_float =>
      (String.eqb (fits_code spec) "D" || String.eqb (fits_code spec) "E")
      && negb (String.eqb (text_format spec) "%s")
      && Str.contains "f" (text_format spec)
  | to_int =>
      String.eqb (fits_code spec) "I" && String.eqb (text_format spec) "%s"
  | to_str =>
      bool_decide (last_char (fits_code spec) = Some "A"%char)
      && String.eqb (text_format spec) "%s"
  end.

(** A carriage return, and a line with one at its end *)
Definition CR : string := String "013" EmptyString.

Definition with_CR (x : string) : string := x +:+ CR.

(** * Properties *)

(** ** The error monad *)

Lemma bind_Ok {A B : Type} (m : result A) (k : A -> result B) (b : B) :
  bind m k = Ok b -> exists a, m = Ok a /\ k a = Ok b.
Proof. destruct m as [a|e]; simpl; intros H; [eauto | discriminate]. Qed.

Lemma returns_not_raises {A : Type} (r : result A) :
  returns r = true -> ~ raises r.
Proof. destruct r; simpl; [tauto | discriminate]. Qed.

(** Closes a goal [a = b] between closed terms by evaluation. *)
Ltac by_evaluation :=
  lazymatch goal with
  | |- ?a = ?b => vm_cast_no_check (@eq_refl _ b)
  end.

Lemma raises_not_Ok {A : Type} (r : result A) :
  raises r <-> forall a, r <> Ok a.
Proof.
  destruct r as [a|e]; simpl; split; try congruence; try tauto.
  intros H. exact (H a eq_refl).
Qed.

(** Inversion of a chain of binds that is known to return. *)
Ltac inv_bind H :=
  let a := fresh "v" in
  let Ha := fresh "E" in
  apply bind_Ok in H; destruct H as (a & Ha & H); simpl in H.

Lemma mapM_Ok_length {A B : Type} (f : A -> result B) (l : list A) (ys : list B) :
  mapM f l = Ok ys -> length ys = length l.
Proof.
  revert ys. induction l as [|x l IH]; simpl; intros ys H.
  - injection H as <-. reflexivity.
  - inv_bind H. inv_bind H. injection H as <-. simpl. f_equal. auto.
Qed.

Lemma mapM_Ok_lookup {A B : Type} (f : A -> result B) (l : list A) (ys : list B) :
  mapM f l = Ok ys ->
  forall i x, l !! i = Some x -> exists y, ys !! i = Some y /\ f x = Ok y.
Proof.
  revert ys. induction l as [|x0 l IH]; simpl; intros ys H i x Hi.
  - discriminate.
  - inv_bind H. inv_bind H. injection H as <-.
    destruct i as [|i]; simpl in *.
    + injection Hi as <-. eauto.
    + eauto.
Qed.

Lemma mapM_Ok_elem {A B : Type} (f : A -> result B) (l : list A) (ys : list B) :
  mapM f l = Ok ys -> forall x, x ∈ l -> exists y, f x = Ok y.
Proof.
  intros H x Hx. apply list_elem_of_lookup in Hx as [i Hi].
  destruct (mapM_Ok_lookup f l ys H i x Hi) as (y & _ & Hy). eauto.
Qed.

Lemma mapM_ext {A B : Type} (f g : A -> result B) (l : list A) :
  (forall x, x ∈ l -> f x = g x) -> mapM f l = mapM g l.
Proof.
  induction l as [|x l IH]; simpl; intros H; [reflexivity|].
  rewrite (H x) by constructor. rewrite IH; [reflexivity|].
  intros y Hy. apply H. by constructor.
Qed.

(** ** The embedding on known values

    The right-hand sides are what the Python interpreter gives for the
    same calls. *)

Example split_keeps_empty_pieces :
  Str.split " - " "a - b - " = ["a"; "b"; ""]
  /\ Str.split "," "x,y,,z" = ["x"; "y"; ""; "z"]
  /\ Str.split "," "" = [""]
  /\ Str.split "aa" "aaa" = [""; "a"].
Proof. repeat split. Qed.

Example split_ws_drops_empty_pieces :
  Str.split_ws " a  b " = ["a"; "b"] /\ Str.split_ws "  " = [].
Proof. repeat split. Qed.

Example strip_chars_is_a_set :
  Str.strip_chars " deg" " 10.5 deg" = "10.5"
  /\ Str.strip_chars " deg" "edge" = ""
  /\ Str.strip_chars "#" "#  # a #" = "  # a ".
Proof. repeat split. Qed.

Example basename_after_last_slash :
  Str.basename "/a/b.c" = "b.c" /\ Str.basename "/a/b/" = ""
  /\ Str.basename "a" = "a".
Proof. repeat split. Qed.

Example zip_star_truncates :
  zip_star [["1"; "2"]; ["3"]] = [["1"; "3"]]
  /\ zip_star [["1"; "2"]; []] = []
  /\ zip_star ([] : list (list string)) = [].
Proof. repeat split. Qed.

Example int_literals :
  Num.int " 5 " = Ok 5 /\ Num.int "1_000" = Ok 1000 /\ Num.int "-12" = Ok (-12)
  /\ Num.int "007" = Ok 7 /\ Num.int "1__0" = Raise ValueError
  /\ Num.int "1.0" = Raise ValueError /\ Num.int "" = Raise ValueError.
Proof. repeat split. Qed.

(** 2456000.5 is 0x1.2bce04p+21 and 2456000.6 is 0x1.2bce04ccccccdp+21. *)
Example float_literals :
  Num.float "2456000.5" = Ok (S754_finite false 5274220913229824 (-31))
  /\ Num.float "2456000.6" = Ok (S754_finite false 5274221127978189 (-31))
  /\ Num.float "0.1" = Ok (S754_finite false 7205759403792794 (-56))
  /\ Num.float "1e23" = Ok (S754_finite false 5960464477539062 24)
  /\ Num.float "9007199254740993" = Ok (S754_finite false 4503599627370496 1)
  /\ Num.float "4.9e-324" = Ok (S754_finite false 1 (-1074))
  /\ Num.float "1e400" = Ok (S754_infinity false)
  /\ Num.float "-0.0" = Ok (S754_zero true)
  /\ Num.float "-Infinity" = Ok (S754_infinity true)
  /\ Num.float "1e" = Raise ValueError
  /\ Num.float "." = Raise ValueError.
Proof. repeat split; by_evaluation. Qed.

(** ** Transposition of the rows *)

Section Transpose.
Context {A : Type}.
Implicit Types (rows ts : list (list A)) (hs col row : list A).

Lemma heads_tails_length rows hs ts :
  heads_tails rows = Some (hs, ts) ->
  length hs = length rows /\ length ts = length rows.
Proof.
  revert hs ts. induction rows as [|row rows IH]; simpl; intros hs ts H.
  - injection H as <- <-. auto.
  - destruct row as [|x r]; [discriminate|].
    destruct (heads_tails rows) as [[hs' ts']|]; [|discriminate].
    injection H as <- <-. destruct (IH hs' ts' eq_refl). simpl. auto.
Qed.

Lemma heads_tails_lookup rows hs ts k row :
  heads_tails rows = Some (hs, ts) -> rows !! k = Some row ->
  exists x t, row = x :: t /\ hs !! k = Some x /\ ts !! k = Some t.
Proof.
  revert hs ts k. induction rows as [|r0 rows IH]; simpl; intros hs ts k H Hk.
  - discriminate.
  - destruct r0 as [|x r]; [discriminate|].
    destruct (heads_tails rows) as [[hs' ts']|]; [|discriminate].
    injection H as <- <-. destruct k as [|k]; simpl in *.
    + injection Hk as <-. eauto.
    + eauto.
Qed.

Lemma zip_rows_column_length first rows col :
  col ∈ zip_rows first rows -> length col = length rows.
Proof.
  revert rows. induction first as [|x first IH]; simpl; intros rows Hc.
  - by apply elem_of_nil in Hc.
  - destruct (heads_tails rows) as [[hs ts]|] eqn:E.
    + destruct (heads_tails_length _ _ _ E) as [Hh Ht].
      apply elem_of_cons in Hc as [->|Hc]; [done|].
      rewrite (IH _ Hc). done.
    + by apply elem_of_nil in Hc.
Qed.

Lemma zip_rows_lookup first rows i col k row :
  zip_rows first rows !! i = Some col -> rows !! k = Some row ->
  col !! k = row !! i /\ (i < length row)%nat.
Proof.
  revert rows i row. induction first as [|x first IH]; simpl; intros rows i row Hi Hk.
  - discriminate.
  - destruct (heads_tails rows) as [[hs ts]|] eqn:E; [|discriminate].
    destruct (heads_tails_lookup _ _ _ _ _ E Hk) as (y & t & -> & Hy & Ht).
    destruct i as [|i]; simpl in *.
    + injection Hi as <-. split; [done | lia].
    + destruct (IH _ _ _ Hi Ht). split; [done | lia].
Qed.

(** Every tuple of the transposition has one element for each row. *)
Lemma zip_star_column_length rows col :
  col ∈ zip_star rows -> length col = length rows.
Proof.
  destruct rows as [|r rows]; simpl.
  - intros H. by apply elem_of_nil in H.
  - apply zip_rows_column_length.
Qed.

(** The [i]-th tuple holds the [i]-th field of every row, and every row
    has such a field. *)
Lemma zip_star_lookup rows i col k row :
  zip_star rows !! i = Some col -> rows !! k = Some row ->
  col !! k = row !! i /\ (i < length row)%nat.
Proof.
  destruct rows as [|r rows]; [discriminate|]. apply zip_rows_lookup.
Qed.

Lemma zip_star_length_le rows row :
  row ∈ rows -> (length (zip_star rows) <= length row)%nat.
Proof.
  intros Hrow. apply list_elem_of_lookup in Hrow as [k Hk].
  destruct (zip_star rows) as [|c cs] eqn:E using rev_ind; [simpl; lia|].
  assert (Hl : zip_star rows !! length cs = Some c).
  { rewrite E. rewrite lookup_app_r by lia. by rewrite Nat.sub_diag. }
  destruct (zip_star_lookup _ _ _ _ _ Hl Hk) as [_ Hlt].
  rewrite length_app. simpl. lia.
Qed.

End Transpose.

(** ** The column loop and the assembled dictionary *)

Lemma getitem_Ok {A : Type} (l : list A) (i : nat) (x : A) :
  getitem l i = Ok x <-> l !! i = Some x.
Proof. unfold getitem. destruct (l !! i); split; congruence. Qed.

(** What the loop of lines 292-297 leaves in the dictionary when it ends
    normally: every column of the legend found its tuple and was coerced,
    the last column of a given code is the one that is kept, and no other
    key is touched. *)
Lemma write_columns_Ok objectlc columns :
  forall ind d0 d,
    write_columns objectlc ind columns d0 = Ok d ->
    (forall j col, columns !! j = Some col ->
       exists raw vs,
         objectlc !! (ind + j)%nat = Some raw /\
         mapM (schema_coerce col) raw = Ok vs /\
         ((forall j', (j < j')%nat -> columns !! j' <> Some col) ->
          d !! col = Some (NpArray vs))) /\
    (forall k, k ∉ columns -> d !! k = d0 !! k).
Proof.
  induction columns as [|c columns IH]; simpl; intros ind d0 d H.
  - injection H as <-. split; [intros j col Hj; discriminate | done].
  - inv_bind H. inv_bind H. rename v into raw, v0 into vs.
    apply getitem_Ok in E.
    destruct (IH _ _ _ H) as [IH1 IH2]. split.
    + intros [|j] col Hj; simpl in Hj.
      * injection Hj as <-. exists raw, vs. rewrite Nat.add_0_r.
        split; [done|]. split; [done|]. intros Hlast.
        rewrite IH2.
        -- apply lookup_insert_eq.
        -- intros Hin. apply list_elem_of_lookup in Hin as [j' Hj'].
           apply (Hlast (S j')); [lia | done].
      * destruct (IH1 j col Hj) as (raw' & vs' & Hraw & Hvs & Hd).
        exists raw', vs'. rewrite <- Nat.add_succ_comm.
        split; [done|]. split; [done|]. intros Hlast. apply Hd.
        intros j' Hlt. apply (Hlast (S j')). lia.
    + intros k Hk. apply not_elem_of_cons in Hk as [Hne Hk].
      rewrite (IH2 k Hk). by apply lookup_insert_ne.
Qed.

(** A tuple of at least one value is coerced only by a code of the schema
    table, and then by the coercion registered there. *)
Lemma schema_coerce_known col raw vs :
  raw <> [] -> mapM (schema_coerce col) raw = Ok vs ->
  exists spec, TEXTLC_OUTPUT_COLUMNS !! col = Some spec /\
               mapM (apply_coercion (coerce spec)) raw = Ok vs.
Proof.
  intros Hne H. destruct raw as [|x raw]; [done|].
  destruct (TEXTLC_OUTPUT_COLUMNS !! col) as [spec|] eqn:E.
  - exists spec. split; [done|]. rewrite <- H. apply mapM_ext.
    intros y _. unfold schema_coerce. by rewrite E.
  - cbn [mapM] in H. unfold schema_coerce at 1 in H. rewrite E in H.
    discriminate.
Qed.

Lemma metadata_keys_not_in_schema :
  Forall (fun k => TEXTLC_OUTPUT_COLUMNS !! k = None) metadata_keys.
Proof. repeat (constructor; [by_evaluation|]). constructor. Qed.

Lemma write_metadata_other info filters columns lcdict k :
  k ∉ metadata_keys ->
  write_metadata info filters columns lcdict !! k = lcdict !! k.
Proof.
  intros Hk. unfold write_metadata, metadata_keys in *.
  repeat (apply not_elem_of_cons in Hk as [? Hk]).
  by repeat (rewrite lookup_insert_ne by done).
Qed.

Lemma schema_code_not_metadata col spec :
  TEXTLC_OUTPUT_COLUMNS !! col = Some spec -> col ∉ metadata_keys.
Proof.
  intros Hs Hin. pose proof metadata_keys_not_in_schema as HF.
  rewrite Forall_forall in HF. specialize (HF col Hin). congruence.
Qed.

Lemma decode_table_Ok rows objectdata d :
  decode_table rows objectdata = Ok d ->
  exists info filters columns lcdict,
    parse_objectinfo objectdata = Ok info /\
    parse_sections objectdata = Ok (filters, columns) /\
    write_columns (zip_star rows) 0 columns ∅ = Ok lcdict /\
    d = write_metadata info filters columns lcdict.
Proof.
  unfold decode_table. intros H.
  inv_bind H. inv_bind H. destruct v0 as [filters columns]. inv_bind H.
  injection H as <-. eauto 10.
Qed.

(** ** The delimiter is chosen by the file name *)

Lemma decode_lines_whitespace lcfname lcflines :
  Str.contains ".csv" lcfname = false ->
  decode_lines lcfname lcflines =
  decode_table (map Str.split_ws (data_lines lcflines)) (metadata_lines lcflines).
Proof. intros H. unfold decode_lines, split_rows. by rewrite H. Qed.

Lemma decode_lines_comma lcfname lcflines :
  Str.contains ".csv" lcfname = true ->
  decode_lines lcfname lcflines =
  decode_table (map (Str.split ",") (data_lines lcflines)) (metadata_lines lcflines).
Proof. intros H. unfold decode_lines, split_rows. by rewrite H. Qed.

(** ** The concrete scenario *)

Lemma scenario_decodes :
  decode_table (map Str.split_ws (data_lines (Str.split LF scenario_content)))
               (metadata_lines (Str.split LF scenario_content))
  = Ok scenario_record.
Proof. by_evaluation. Qed.

(** C1, as amended. The scenario file, read under any name that selects
    the whitespace-delimited decoder, gives a record with detection count
    2, columns BJD and IM1, BJD equal to the floats 2456000.5 and
    2456000.6, cross-match identifier 01020304+0506070, and the filter
    list ["(header)"; "r"]: the line after the marker is kept. *)
Theorem scenario_read {handle : Type}
    (open_stream : compression -> string -> result handle)
    (read_decode : handle -> result string)
    (pyfits_open : handle -> result hdulist)
    (HAVEPYFITS : bool) (hatlc : string) (lcf : handle) :
  Str.contains ".fits" (Str.basename hatlc) = false ->
  Str.contains ".csv" (Str.basename hatlc) = false ->
  Str.contains ".hatlc" (Str.basename hatlc) = true ->
  open_stream (sniff_compression (Str.basename hatlc)) hatlc = Ok lcf ->
  read_decode lcf = Ok scenario_content ->
  exists lcdict,
    read_hatlc open_stream read_decode pyfits_open HAVEPYFITS hatlc
      = ([], Ok (Some lcdict)) /\
    lcdict !! "ndet" = Some (Scalar (PyInt 2)) /\
    lcdict !! "cols" = Some (PyList [PyStr "BJD"; PyStr "IM1"]) /\
    lcdict !! "BJD" =
      Some (NpArray [PyFloat (Num.float_of_decimal false 24560005 (-1));
                     PyFloat (Num.float_of_decimal false 24560006 (-1))]) /\
    lcdict !! "filters" = Some (PyList [PyStr "(header)"; PyStr "r"]) /\
    lcdict !! "twomassid" = Some (Scalar (PyStr "01020304+0506070")).
Proof.
  intros Hfits Hcsv Hhatlc Hopen Hread. exists scenario_record.
  split.
  - unfold read_hatlc. rewrite Hopen, Hfits, Hcsv, Hhatlc. simpl.
    rewrite Hread. simpl. unfold read_text_lc.
    rewrite (decode_lines_whitespace _ _ Hcsv), scenario_decodes. reflexivity.
  - repeat split; by_evaluation.
Qed.

Lemma scenario_read_witness :
  exists lcdict,
    read_one_file scenario_content true "HAT-123-4567.hatlc"
      = ([], Ok (Some lcdict)) /\
    lcdict !! "ndet" = Some (Scalar (PyInt 2)) /\
    lcdict !! "cols" = Some (PyList [PyStr "BJD"; PyStr "IM1"]) /\
    lcdict !! "BJD" =
      Some (NpArray [PyFloat (Num.float_of_decimal false 24560005 (-1));
                     PyFloat (Num.float_of_decimal false 24560006 (-1))]) /\
    lcdict !! "filters" = Some (PyList [PyStr "(header)"; PyStr "r"]) /\
    lcdict !! "twomassid" = Some (Scalar (PyStr "01020304+0506070")).
Proof.
  apply (scenario_read (open_one) (read_one scenario_content) fits_one true
           "HAT-123-4567.hatlc" tt); reflexivity.
Defined.

(** C1, as stated, fails: the filter list that the scenario file gives is
    ["(header)"; "r"], not ["r"]. *)
Lemma scenario_filters_keep_subheader :
  returned_entry (read_one_file scenario_content true "HAT-123-4567.hatlc")
                 "filters"
    = Some (PyList [PyStr "(header)"; PyStr "r"]) /\
  returned_entry (read_one_file scenario_content true "HAT-123-4567.hatlc")
                 "filters"
    <> Some (PyList [PyStr "r"]).
Proof.
  assert (E : returned_entry
                (read_one_file scenario_content true "HAT-123-4567.hatlc")
                "filters"
              = Some (PyList [PyStr "(header)"; PyStr "r"])).
  { by_evaluation. }
  split; [exact E|]. rewrite E. discriminate.
Qed.

(** ** The filter block *)

Lemma index_of_app x pre rest :
  x ∉ pre -> index_of x (pre ++ x :: rest) = Ok (length pre).
Proof.
  induction pre as [|y pre IH]; simpl; intros Hx.
  - by rewrite String.eqb_refl.
  - apply not_elem_of_cons in Hx as [Hne Hx].
    destruct (String.eqb_spec y x) as [->|_]; [done|].
    by rewrite (IH Hx).
Qed.

Lemma mapM_raises {A B : Type} (f : A -> result B) (l : list A) (x : A) :
  x ∈ l -> raises (f x) -> raises (mapM f l).
Proof.
  intros Hx Hf. apply raises_not_Ok. intros ys Hys.
  destruct (mapM_Ok_elem f l ys Hys x Hx) as [y Hy].
  rewrite Hy in Hf. exact Hf.
Qed.

(** The two markers are found at their first occurrence, and a legend
    that would contain the filter marker is rejected. *)
Lemma parse_sections_between pre mid post filters columns :
  "Filters used:" ∉ pre -> "Columns:" ∉ mid ->
  parse_sections (pre ++ "Filters used:" :: mid ++ "Columns:" :: post)
    = Ok (filters, columns) ->
  filters = "Filters used:" :: mid /\ mapM column_name post = Ok columns.
Proof.
  intros HF HC H. unfold parse_sections in H.
  rewrite (index_of_app _ _ _ HF) in H. simpl in H.
  destruct (decide ("Columns:" ∈ pre)) as [Hin|Hnin].
  - (* the legend would start before the filter block *)
    exfalso. apply list_elem_of_split_l in Hin as (p1 & p2 & -> & Hp1).
    rewrite <- (app_assoc p1), <- app_comm_cons in H.
    rewrite (index_of_app _ _ _ Hp1) in H. simpl in H.
    inv_bind H.
    assert (Hr : raises (mapM column_name
                (drop (length p1 + 1)
                   (p1 ++ "Columns:" :: p2 ++
                          "Filters used:" :: mid ++ "Columns:" :: post)))).
    { apply (mapM_raises _ _ "Filters used:"); [|exact I].
      rewrite drop_app_ge by lia.
      replace (length p1 + 1 - length p1)%nat with 1%nat by lia. simpl.
      rewrite drop_0. apply elem_of_app. right. by left. }
    rewrite E in Hr. exact Hr.
  - assert (Hpm : "Columns:" ∉ pre ++ "Filters used:" :: mid).
    { apply not_elem_of_app. split; [done|].
      apply not_elem_of_cons. split; [discriminate | done]. }
    rewrite (app_comm_cons mid), app_assoc in H.
    rewrite (index_of_app _ _ _ Hpm) in H. simpl in H.
    inv_bind H. injection H as <- <-. split.
    + unfold slice. rewrite take_app_length. rewrite drop_app_length. done.
    + rewrite <- E. f_equal. rewrite drop_app_ge by lia.
      replace (_ - _)%nat with 1%nat by lia. done.
Qed.

Lemma read_text_lc_Ok lcfname content lcdict :
  read_text_lc lcfname content = Ok lcdict ->
  exists info filters columns columns_dict,
    parse_objectinfo (metadata_lines (Str.split LF content)) = Ok info /\
    parse_sections (metadata_lines (Str.split LF content))
      = Ok (filters, columns) /\
    write_columns
      (zip_star (split_rows lcfname (data_lines (Str.split LF content))))
      0 columns ∅ = Ok columns_dict /\
    lcdict = write_metadata info filters columns columns_dict.
Proof. apply decode_table_Ok. Qed.

Lemma write_metadata_filters info filters columns lcdict :
  write_metadata info filters columns lcdict !! "filters"
  = Some (PyList (map PyStr (drop 1 filters))).
Proof. unfold write_metadata. by simplify_map_eq. Qed.

Lemma write_metadata_cols info filters columns lcdict :
  write_metadata info filters columns lcdict !! "cols"
  = Some (PyList (map PyStr columns)).
Proof. unfold write_metadata. by simplify_map_eq. Qed.

Lemma write_metadata_ndet info filters columns lcdict :
  write_metadata info filters columns lcdict !! "ndet"
  = Some (Scalar (PyInt (ndet info))).
Proof. unfold write_metadata. by simplify_map_eq. Qed.

Lemma write_metadata_twomassid info filters columns lcdict :
  write_metadata info filters columns lcdict !! "twomassid"
  = Some (Scalar (PyStr (Str.strip_chars "2MASS J" (twomassid info)))).
Proof. unfold write_metadata. by simplify_map_eq. Qed.

(** C2, as amended. When the metadata lines are [pre], the first line
    "Filters used:", [mid], the first following line "Columns:", and
    [post], the filter list of a returned record is exactly [mid]: the
    marker line is dropped and every line between the markers is kept,
    the first one included. *)
Theorem filters_between_markers lcfname content lcdict pre mid post :
  metadata_lines (Str.split LF content)
    = pre ++ "Filters used:" :: mid ++ "Columns:" :: post ->
  "Filters used:" ∉ pre ->
  "Columns:" ∉ mid ->
  read_text_lc lcfname content = Ok lcdict ->
  lcdict !! "filters" = Some (PyList (map PyStr mid)).
Proof.
  intros Hmeta HF HC Hread.
  apply read_text_lc_Ok in Hread
    as (info & filters & columns & cd & _ & Hsec & _ & ->).
  rewrite Hmeta in Hsec.
  destruct (parse_sections_between _ _ _ _ _ HF HC Hsec) as [-> _].
  apply write_metadata_filters.
Qed.

Ltac not_in_list :=
  let H := fresh in
  intros H; repeat (apply elem_of_cons in H as [H|H]; [discriminate|]);
  by apply elem_of_nil in H.

Lemma filters_between_markers_witness :
  scenario_record !! "filters" = Some (PyList (map PyStr ["(header)"; "r"])).
Proof.
  apply (filters_between_markers "HAT-123-4567.hatlc" scenario_content
           scenario_record
           ["HAT-123-4567 - 2MASS J01020304+0506070";
            "RA = 10.123 deg, Dec = 20.456 deg";
            "Vmag = 11.0, Rmag = 10.5, Imag = 10.2, Jmag = 9.8, Hmag = 9.5, Kmag = 9.3";
            "NDET: 2"; "HS: G1,G2"]
           ["(header)"; "r"]
           ["1 - BJD - time"; "2 - IM1 - mag"]).
  - by_evaluation.
  - not_in_list.
  - not_in_list.
  - by_evaluation.
Defined.

(** C2, as stated, fails: in the two-filter file the lines between the
    markers are "g" and "r"; the returned filter list holds both, whereas
    the list with the first entry discarded holds "r" alone. *)
Lemma first_filter_not_discarded :
  bind (read_text_lc "lc.csv" two_filter_content)
       (fun lcdict => Ok (lcdict !! "filters"))
    = Ok (Some (PyList [PyStr "g"; PyStr "r"])) /\
  bind (read_text_lc "lc.csv" two_filter_content)
       (fun lcdict => Ok (lcdict !! "filters"))
    <> Ok (Some (PyList (drop 1 [PyStr "g"; PyStr "r"]))).
Proof.
  assert (E : bind (read_text_lc "lc.csv" two_filter_content)
                   (fun lcdict => Ok (lcdict !! "filters"))
              = Ok (Some (PyList [PyStr "g"; PyStr "r"]))).
  { by_evaluation. }
  split; [exact E|]. rewrite E. discriminate.
Qed.

(** ** The header lines at fixed positions *)

Lemma unpack2_Ok {A : Type} (l : list A) (a b : A) :
  unpack2 l = Ok (a, b) -> l = [a; b].
Proof.
  destruct l as [|x [|y [|z l]]]; simpl; intros H; try discriminate.
  by injection H as <- <-.
Qed.

Ltac inv_binds H :=
  repeat (inv_bind H;
          repeat match goal with
                 | p : (_ * _)%type |- _ => destruct p; simpl in H
                 end).

Lemma parse_objectinfo_Ok objectdata info :
  parse_objectinfo objectdata = Ok info ->
  exists line0 line3 count,
    objectdata !! 0%nat = Some line0 /\
    Str.split " - " line0 = [hatid info; twomassid info] /\
    objectdata !! 3%nat = Some line3 /\
    getlast (Str.split ": " line3) = Ok count /\
    Num.int count = Ok (ndet info).
Proof.
  unfold parse_objectinfo. intros H. inv_binds H. injection H as <-. simpl.
  repeat match goal with
         | E : getitem _ _ = Ok _ |- _ => apply getitem_Ok in E
         | E : unpack2 _ = Ok _ |- _ => apply unpack2_Ok in E
         | E : bind (getlast _) _ = Ok _ |- _ =>
             apply bind_Ok in E; destruct E as (? & ? & ?)
         end.
  eauto 10.
Qed.

(** ** Column lengths *)

Lemma last_occurrence (col : string) (columns : list string) :
  col ∈ columns ->
  exists j, columns !! j = Some col /\
            forall j', (j < j')%nat -> columns !! j' <> Some col.
Proof.
  intros Hin. apply list_elem_of_split_r in Hin as (l1 & l2 & -> & Hl2).
  exists (length l1). split.
  - by rewrite list_lookup_middle.
  - intros j' Hlt Hj'. apply Hl2.
    rewrite lookup_app_r in Hj' by lia.
    destruct (j' - length l1)%nat as [|k] eqn:Ek; [lia|]. simpl in Hj'.
    apply list_elem_of_lookup. eauto.
Qed.

(** What a returned record holds for a column of the legend: the coerced
    fields, at the position of the column's last mention, of all the data
    lines. *)
Lemma returned_column lcfname content lcdict info filters columns cd col :
  write_columns
    (zip_star (split_rows lcfname (data_lines (Str.split LF content))))
    0 columns ∅ = Ok cd ->
  lcdict = write_metadata info filters columns cd ->
  col ∈ columns ->
  exists j raw spec vs,
    columns !! j = Some col /\
    (forall j', (j < j')%nat -> columns !! j' <> Some col) /\
    zip_star (split_rows lcfname (data_lines (Str.split LF content))) !! j
      = Some raw /\
    length raw = length (data_lines (Str.split LF content)) /\
    TEXTLC_OUTPUT_COLUMNS !! col = Some spec /\
    mapM (apply_coercion (coerce spec)) raw = Ok vs /\
    lcdict !! col = Some (NpArray vs).
Proof.
  intros Hw -> Hin. destruct (last_occurrence _ _ Hin) as (j & Hj & Hlast).
  destruct (write_columns_Ok _ _ _ _ _ Hw) as [Hcols _].
  destruct (Hcols j col Hj) as (raw & vs & Hraw & Hvs & Hd). simpl in Hraw.
  assert (Hlen : length raw = length (data_lines (Str.split LF content))).
  { rewrite (zip_star_column_length
               (split_rows lcfname (data_lines (Str.split LF content))) raw).
    - unfold split_rows. destruct (Str.contains _ _); by rewrite length_map.
    - apply list_elem_of_lookup. eauto. }
  assert (Hne : raw <> []).
  { intros ->. simpl in Hlen.
    destruct (data_lines (Str.split LF content)); [|discriminate].
    unfold split_rows in Hraw. destruct (Str.contains _ _); discriminate. }
  destruct (schema_coerce_known _ _ _ Hne Hvs) as (spec & Hspec & Hvs').
  exists j, raw, spec, vs. repeat (split; [done|]).
  rewrite write_metadata_other by (by eapply schema_code_not_metadata).
  by apply Hd.
Qed.

(** C3, as amended. In a returned record every column of the legend is an
    array with one element for each data line (a line that does not start
    with "#" and is longer than one character); the detection count is
    the integer of metadata line 3 and is not compared with that number. *)
Theorem column_length_is_row_count lcfname content lcdict :
  read_text_lc lcfname content = Ok lcdict ->
  exists columns line3 count n,
    lcdict !! "cols" = Some (PyList (map PyStr columns)) /\
    metadata_lines (Str.split LF content) !! 3%nat = Some line3 /\
    getlast (Str.split ": " line3) = Ok count /\
    Num.int count = Ok n /\
    lcdict !! "ndet" = Some (Scalar (PyInt n)) /\
    forall col, col ∈ columns ->
      exists vs, lcdict !! col = Some (NpArray vs) /\
                 length vs = length (data_lines (Str.split LF content)).
Proof.
  intros Hread.
  apply read_text_lc_Ok in Hread
    as (info & filters & columns & cd & Hinfo & Hsec & Hw & Hd).
  apply parse_objectinfo_Ok in Hinfo
    as (line0 & line3 & count & _ & _ & H3 & Hcount & Hint).
  exists columns, line3, count, (ndet info).
  split; [subst; apply write_metadata_cols|].
  repeat (split; [done|]).
  split; [subst; apply write_metadata_ndet|].
  intros col Hin.
  destruct (returned_column _ _ _ _ _ _ _ _ Hw Hd Hin)
    as (j & raw & spec & vs & _ & _ & _ & Hlen & _ & Hvs & Hcol).
  exists vs. split; [done|].
  by rewrite (mapM_Ok_length _ _ _ Hvs).
Qed.

Lemma column_length_is_row_count_witness :
  exists columns line3 count n,
    scenario_record !! "cols" = Some (PyList (map PyStr columns)) /\
    metadata_lines (Str.split LF scenario_content) !! 3%nat = Some line3 /\
    getlast (Str.split ": " line3) = Ok count /\
    Num.int count = Ok n /\
    scenario_record !! "ndet" = Some (Scalar (PyInt n)) /\
    forall col, col ∈ columns ->
      exists vs, scenario_record !! col = Some (NpArray vs) /\
                 length vs = length (data_lines (Str.split LF scenario_content)).
Proof.
  apply (column_length_is_row_count "HAT-123-4567.hatlc" scenario_content
           scenario_record).
  by_evaluation.
Defined.

(** C3, as stated, fails: the two-filter file announces three detections
    and holds two data lines; it is read without error, the detection
    count of the record is 3 and its BJD column has 2 elements. *)
Lemma detection_count_not_checked :
  bind (read_text_lc "lc.csv" two_filter_content)
       (fun lcdict => Ok (lcdict !! "ndet", array_length (lcdict !! "BJD")))
    = Ok (Some (Scalar (PyInt 3)), Some 2%nat) /\
  Z.of_nat 2 <> 3.
Proof. split; [by_evaluation | discriminate]. Qed.

(** ** Rows of unequal length *)

Section TransposeFields.
Context {A : Type}.
Implicit Types (rows ts : list (list A)) (hs first : list A).

Lemma heads_tails_None rows i :
  heads_tails rows = None -> nth_fields i rows = None.
Proof.
  induction rows as [|row rows IH]; simpl; [discriminate|].
  destruct row as [|x r]; [done|].
  destruct (heads_tails rows) as [[hs ts]|]; [discriminate|].
  intros _. rewrite IH by done. by destruct ((x :: r) !! i).
Qed.

Lemma heads_tails_Some rows hs ts :
  heads_tails rows = Some (hs, ts) ->
  nth_fields 0 rows = Some hs /\
  forall i, nth_fields (S i) rows = nth_fields i ts.
Proof.
  revert hs ts. induction rows as [|row rows IH]; simpl; intros hs ts H.
  - by injection H as <- <-.
  - destruct row as [|x r]; [discriminate|].
    destruct (heads_tails rows) as [[hs' ts']|]; [|discriminate].
    injection H as <- <-. destruct (IH _ _ eq_refl) as [H0 HS].
    simpl. rewrite H0. split; [done|]. intros i. by rewrite HS.
Qed.

Lemma zip_rows_nth first rows i :
  zip_rows first (first :: rows) !! i = nth_fields i (first :: rows).
Proof.
  revert rows i. induction first as [|x first IH]; intros rows i.
  - done.
  - cbn [zip_rows heads_tails].
    destruct (heads_tails rows) as [[hs ts]|] eqn:E.
    + destruct (heads_tails_Some _ _ _ E) as [H0 HS].
      destruct i as [|i].
      * cbn. by rewrite H0.
      * cbn [lookup list_lookup]. rewrite IH. cbn. by rewrite HS.
    + rewrite lookup_nil. cbn [nth_fields].
      rewrite (heads_tails_None _ _ E). by destruct ((x :: first) !! i).
Qed.

(** The tuples of the transposition, one by one *)
Lemma zip_star_nth rows i :
  zip_star rows !! i =
  match rows with
  | [] => None
  | _ => nth_fields i rows
  end.
Proof. destruct rows as [|r rows]; [done|]. apply zip_rows_nth. Qed.

Lemma nth_fields_take rows n i :
  (i < n)%nat -> nth_fields i (take n <$> rows) = nth_fields i rows.
Proof.
  intros Hlt. induction rows as [|row rows IH]; [done|].
  rewrite fmap_cons. cbn [nth_fields].
  rewrite IH. by rewrite lookup_take_lt.
Qed.

End TransposeFields.

Lemma write_columns_ext objectlc objectlc' columns :
  forall ind lcdict,
    (forall j, (j < length columns)%nat ->
               objectlc !! (ind + j)%nat = objectlc' !! (ind + j)%nat) ->
    write_columns objectlc ind columns lcdict
    = write_columns objectlc' ind columns lcdict.
Proof.
  induction columns as [|col columns IH]; intros ind lcdict H; [done|].
  cbn [write_columns]. unfold getitem.
  pose proof (H 0%nat ltac:(simpl; lia)) as H0.
  rewrite Nat.add_0_r in H0. rewrite <- H0.
  destruct (objectlc !! ind) as [raw|]; [|done]. cbn [bind].
  destruct (mapM (schema_coerce col) raw) as [values|]; [|done]. cbn [bind].
  apply IH. intros j Hj. rewrite Nat.add_succ_comm. apply H. simpl. lia.
Qed.

(** Fields beyond the width of the legend play no part in the result. *)
Lemma decode_table_ignores_extra_fields rows objectdata :
  decode_table rows objectdata
  = decode_table (take (legend_width objectdata) <$> rows) objectdata.
Proof.
  unfold decode_table, legend_width.
  destruct (parse_objectinfo objectdata) as [info|]; [|done]. cbn [bind].
  destruct (parse_sections objectdata) as [[filters columns]|]; [|done].
  cbn [bind]. f_equal.
  apply write_columns_ext. intros j Hj. cbn [Nat.add].
  rewrite !zip_star_nth. destruct rows as [|row rows]; [done|].
  rewrite fmap_cons. by rewrite <- fmap_cons, nth_fields_take.
Qed.

(** C4, as amended. A data line with fewer fields than the legend has
    columns makes the call fail; fields beyond the width of the legend
    are ignored, so that rows of unequal length that are all at least as
    wide as the legend are read like the rows cut to that width. *)
Theorem ragged_rows lcfname content :
  (forall filters columns row,
     parse_sections (metadata_lines (Str.split LF content))
       = Ok (filters, columns) ->
     row ∈ split_rows lcfname (data_lines (Str.split LF content)) ->
     (length row < length columns)%nat ->
     raises (read_text_lc lcfname content)) /\
  read_text_lc lcfname content
  = decode_table
      (take (legend_width (metadata_lines (Str.split LF content)))
         <$> split_rows lcfname (data_lines (Str.split LF content)))
      (metadata_lines (Str.split LF content)).
Proof.
  split; [|apply decode_table_ignores_extra_fields].
  intros filters columns row Hsec Hrow Hlt.
  apply raises_not_Ok. intros lcdict Hread.
  apply read_text_lc_Ok in Hread
    as (info & filters' & columns' & cd & _ & Hsec' & Hw & _).
  rewrite Hsec in Hsec'. injection Hsec' as <- <-.
  destruct (write_columns_Ok _ _ _ _ _ Hw) as [Hcols _].
  destruct (lookup_lt_is_Some_2 columns (length row) Hlt) as [col Hcol].
  destruct (Hcols _ _ Hcol) as (raw & _ & Hraw & _).
  apply list_elem_of_lookup in Hrow as [k Hk].
  destruct (zip_star_lookup _ _ _ _ _ Hraw Hk) as [_ Hbound].
  simpl in Hbound. lia.
Qed.

Lemma ragged_rows_witness :
  raises (read_text_lc "ragged.hatlc" ragged_wide_content).
Proof.
  apply (proj1 (ragged_rows "ragged.hatlc" ragged_wide_content)
           ["Filters used:"; "r"] ["BJD"; "IM1"; "IE1"; "IQ1"; "CCD"]
           ["2455000.75"; "11.87"; "0.02"; "G"]).
  - by_evaluation.
  - vm_compute. right. left.
  - simpl. lia.
Defined.

(** C4, as stated, fails: the ragged file, with one line of five fields
    and one of four, is read without error; the record has the four
    columns of the legend and the fifth field of the first line is lost. *)
Lemma ragged_rows_accepted :
  bind (read_text_lc "ragged.hatlc" ragged_content)
       (fun lcdict => Ok (lcdict !! "cols", lcdict !! "IQ1"))
    = Ok (Some (PyList [PyStr "BJD"; PyStr "IM1"; PyStr "IE1"; PyStr "IQ1"]),
          Some (NpArray [PyStr "G"; PyStr "G"])) /\
  ~ raises (read_text_lc "ragged.hatlc" ragged_content).
Proof.
  split; [by_evaluation|].
  apply returns_not_raises. by_evaluation.
Qed.

(** ** Coercion by the schema table *)

Lemma write_columns_app objectlc known rest :
  forall ind lcdict lcdict',
    write_columns objectlc ind known lcdict = Ok lcdict' ->
    write_columns objectlc ind (known ++ rest) lcdict
    = write_columns objectlc (ind + length known) rest lcdict'.
Proof.
  induction known as [|c known IH]; intros ind lcdict lcdict' H.
  - injection H as <-. by rewrite Nat.add_0_r.
  - cbn [write_columns] in H. inv_bind H. inv_bind H.
    rewrite <- app_comm_cons. cbn [write_columns].
    rewrite E. cbn [bind]. rewrite E0. cbn [bind].
    rewrite (IH _ _ _ H). f_equal. simpl. lia.
Qed.

(** The loop stops with [KeyError] at the first column whose code the
    schema table does not have. *)
Lemma write_columns_KeyError objectlc known col rest lcdict lcdict' raw :
  write_columns objectlc 0 known lcdict = Ok lcdict' ->
  objectlc !! length known = Some raw ->
  raw <> [] ->
  TEXTLC_OUTPUT_COLUMNS !! col = None ->
  write_columns objectlc 0 (known ++ col :: rest) lcdict
  = Raise (KeyError col).
Proof.
  intros Hknown Hraw Hne Hnone.
  rewrite (write_columns_app _ _ _ _ _ _ Hknown). cbn [Nat.add write_columns].
  unfold getitem. rewrite Hraw. cbn [bind].
  destruct raw as [|x raw]; [done|]. cbn [mapM].
  unfold schema_coerce at 1. by rewrite Hnone.
Qed.

(** What a coercion of the schema table computes when it returns: the
    builtin [float], [str] or [int] of lines 51-177 applied to the field. *)
Lemma apply_coercion_Ok c x v :
  apply_coercion c x = Ok v ->
  match c with
  | to_float => exists f, Num.float x = Ok f /\ v = PyFloat f
  | to_str => v = PyStr x
  | to_int => exists z, Num.int x = Ok z /\ v = PyInt z
  end.
Proof.
  destruct c; cbn [apply_coercion]; intros H.
  - inv_bind H. injection H as <-. eauto.
  - by injection H as <-.
  - inv_bind H. injection H as <-. eauto.
Qed.

Lemma mapM_Ok_Forall2 {A B : Type} (f : A -> result B) (l : list A) (ys : list B) :
  mapM f l = Ok ys -> Forall2 (fun x y => f x = Ok y) l ys.
Proof.
  revert ys. induction l as [|x l IH]; simpl; intros ys H.
  - injection H as <-. constructor.
  - inv_bind H. inv_bind H. injection H as <-. constructor; auto.
Qed.

Lemma mapM_coercion_Forall2 c raw vs :
  mapM (apply_coercion c) raw = Ok vs ->
  Forall2 (fun x v =>
             match c with
             | to_float => exists f, Num.float x = Ok f /\ v = PyFloat f
             | to_str => v = PyStr x
             | to_int => exists z, Num.int x = Ok z /\ v = PyInt z
             end) raw vs.
Proof.
  intros H. apply mapM_Ok_Forall2 in H.
  induction H as [|x v raw vs Hx _ IH]; [constructor|].
  constructor; [by apply apply_coercion_Ok | exact IH].
Qed.

(** C5. Let the legend of the file name the column codes [columns]. If
    one of them is not in the schema table the call fails. The failure is
    the [KeyError] of the first such code when nothing fails before the
    code is looked up: the header is well formed, the columns before the
    code are coerced and the data lines have a field for it; otherwise it
    is the earlier failure. If the call returns, every code of the legend
    is a key of the record, and its entry is [numpy.array] applied to the
    list of the fields of all the data lines at the position of the code,
    each field [x] replaced by [float(x)], [str(x)] or [int(x)], the
    function that the schema table registers for the code. *)
Theorem legend_columns_coerced lcfname content filters columns :
  parse_sections (metadata_lines (Str.split LF content))
    = Ok (filters, columns) ->
  (forall col,
     col ∈ columns -> TEXTLC_OUTPUT_COLUMNS !! col = None ->
     raises (read_text_lc lcfname content)) /\
  (forall info known col rest lcdict raw,
     parse_objectinfo (metadata_lines (Str.split LF content)) = Ok info ->
     columns = known ++ col :: rest ->
     write_columns
       (zip_star (split_rows lcfname (data_lines (Str.split LF content))))
       0 known ∅ = Ok lcdict ->
     data_lines (Str.split LF content) <> [] ->
     nth_fields (length known)
       (split_rows lcfname (data_lines (Str.split LF content))) = Some raw ->
     TEXTLC_OUTPUT_COLUMNS !! col = None ->
     read_text_lc lcfname content = Raise (KeyError col)) /\
  (forall lcdict,
     read_text_lc lcfname content = Ok lcdict ->
     lcdict !! "cols" = Some (PyList (map PyStr columns)) /\
     forall col,
       col ∈ columns ->
       exists j raw spec vs,
         columns !! j = Some col /\
         (forall j', (j < j')%nat -> columns !! j' <> Some col) /\
         nth_fields j (split_rows lcfname (data_lines (Str.split LF content)))
           = Some raw /\
         TEXTLC_OUTPUT_COLUMNS !! col = Some spec /\
         Forall2 (fun x v =>
                    match coerce spec with
                    | to_float => exists f, Num.float x = Ok f /\ v = PyFloat f
                    | to_str => v = PyStr x
                    | to_int => exists z, Num.int x = Ok z /\ v = PyInt z
                    end) raw vs /\
         lcdict !! col = Some (NpArray vs)).
Proof.
  intros Hsec.
  assert (Hret : forall lcdict,
             read_text_lc lcfname content = Ok lcdict ->
             lcdict !! "cols" = Some (PyList (map PyStr columns)) /\
             forall col,
               col ∈ columns ->
               exists j raw spec vs,
                 columns !! j = Some col /\
                 (forall j', (j < j')%nat -> columns !! j' <> Some col) /\
                 nth_fields j
                   (split_rows lcfname (data_lines (Str.split LF content)))
                   = Some raw /\
                 TEXTLC_OUTPUT_COLUMNS !! col = Some spec /\
                 Forall2 (fun x v =>
                            match coerce spec with
                            | to_float =>
                                exists f, Num.float x = Ok f /\ v = PyFloat f
                            | to_str => v = PyStr x
                            | to_int =>
                                exists z, Num.int x = Ok z /\ v = PyInt z
                            end) raw vs /\
                 lcdict !! col = Some (NpArray vs)).
  { intros lcdict Hread.
    apply read_text_lc_Ok in Hread
      as (info & filters' & columns' & cd & _ & Hsec' & Hw & Hd).
    rewrite Hsec in Hsec'. injection Hsec' as <- <-.
    split; [subst; apply write_metadata_cols|].
    intros col Hin.
    destruct (returned_column _ _ _ _ _ _ _ _ Hw Hd Hin)
      as (j & raw & spec & vs & Hj & Hlast & Hraw & _ & Hspec & Hvs & Hcol).
    exists j, raw, spec, vs. repeat (split; [done|]).
    split; [|split; [done|split; [|done]]].
    - rewrite zip_star_nth in Hraw.
      destruct (split_rows lcfname (data_lines (Str.split LF content)));
        [discriminate | done].
    - by apply mapM_coercion_Forall2. }
  split; [|split; [|exact Hret]].
  - intros col Hin Hnone. apply raises_not_Ok. intros lcdict Hread.
    destruct (Hret lcdict Hread) as [_ Hcols].
    destruct (Hcols col Hin) as (j & raw & spec & vs & _ & _ & _ & Hspec & _).
    congruence.
  - intros info known col rest lcdict raw Hinfo -> Hknown Hrows Hraw Hnone.
    unfold read_text_lc, decode_lines, decode_table.
    rewrite Hinfo, Hsec. cbn [bind].
    assert (Hlen : length (split_rows lcfname
                             (data_lines (Str.split LF content)))
                   = length (data_lines (Str.split LF content))).
    { unfold split_rows. destruct (Str.contains _ _); by rewrite length_map. }
    assert (Hz : zip_star (split_rows lcfname
                             (data_lines (Str.split LF content)))
                 !! length known = Some raw).
    { rewrite zip_star_nth.
      destruct (split_rows lcfname (data_lines (Str.split LF content)));
        [|done].
      destruct (data_lines (Str.split LF content)); [done | discriminate]. }
    rewrite (write_columns_KeyError _ _ _ _ _ _ raw Hknown Hz); [done| |done].
    intros ->.
    pose proof (zip_star_column_length
                  (split_rows lcfname (data_lines (Str.split LF content))) [])
      as Hcl.
    rewrite Hlen in Hcl.
    destruct (data_lines (Str.split LF content)); [done|].
    discriminate Hcl. apply list_elem_of_lookup. eauto.
Qed.

Lemma legend_columns_coerced_witness :
  raises (read_text_lc "HAT-123-4567.hatlc" unknown_column_content) /\
  read_text_lc "HAT-123-4567.hatlc" unknown_column_content
    = Raise (KeyError "XYZ") /\
  exists j raw spec vs,
    ["BJD"; "IM1"] !! j = Some "IM1" /\
    (forall j', (j < j')%nat -> ["BJD"; "IM1"] !! j' <> Some "IM1") /\
    nth_fields j
      (split_rows "HAT-123-4567.hatlc"
         (data_lines (Str.split LF scenario_content))) = Some raw /\
    TEXTLC_OUTPUT_COLUMNS !! "IM1" = Some spec /\
    Forall2 (fun x v =>
               match coerce spec with
               | to_float => exists f, Num.float x = Ok f /\ v = PyFloat f
               | to_str => v = PyStr x
               | to_int => exists z, Num.int x = Ok z /\ v = PyInt z
               end) raw vs /\
    scenario_record !! "IM1" = Some (NpArray vs).
Proof.
  pose proof (legend_columns_coerced "HAT-123-4567.hatlc"
                unknown_column_content
                ["Filters used:"; "(header)"; "r"] ["BJD"; "IM1"; "XYZ"]
                ltac:(by_evaluation)) as (Hfails & Hkey & _).
  pose proof (legend_columns_coerced "HAT-123-4567.hatlc" scenario_content
                ["Filters used:"; "(header)"; "r"] ["BJD"; "IM1"]
                ltac:(by_evaluation)) as (_ & _ & Hret).
  split; [|split].
  - apply (Hfails "XYZ"); [right; right; left | by_evaluation].
  - destruct (parse_objectinfo
                (metadata_lines (Str.split LF unknown_column_content)))
      as [info|] eqn:Einfo; [|by vm_compute in Einfo].
    destruct (write_columns
                (zip_star (split_rows "HAT-123-4567.hatlc"
                   (data_lines (Str.split LF unknown_column_content))))
                0 ["BJD"; "IM1"] ∅) as [lcdict|] eqn:Ew;
      [|by vm_compute in Ew].
    apply (Hkey info ["BJD"; "IM1"] "XYZ" [] lcdict ["1"; "2"]).
    + reflexivity.
    + reflexivity.
    + exact Ew.
    + by vm_compute.
    + by_evaluation.
    + by_evaluation.
  - apply (Hret scenario_record); [by_evaluation | right; left].
Defined.

(** C5, as stated, fails: in this file the header is well formed and the
    only code of the legend, XYZ, is not in the schema table, but there is
    no data line. The tuple of index 0 is looked up in the empty
    transposition before the code is looked up in the schema table
    (the iterable of the comprehension of lines 296-297 is evaluated
    first), so the call stops with [IndexError] and not with the
    [KeyError] of the unknown code. *)
Lemma unknown_column_alone_IndexError :
  parse_sections
    (metadata_lines (Str.split LF unknown_column_alone_content))
    = Ok (["Filters used:"; "r"], ["XYZ"]) /\
  TEXTLC_OUTPUT_COLUMNS !! "XYZ" = None /\
  data_lines (Str.split LF unknown_column_alone_content) = [] /\
  read_text_lc "HAT-400-0000007.hatlc" unknown_column_alone_content
    = Raise IndexError /\
  read_text_lc "HAT-400-0000007.hatlc" unknown_column_alone_content
    <> Raise (KeyError "XYZ").
Proof.
  assert (E : read_text_lc "HAT-400-0000007.hatlc"
                unknown_column_alone_content = Raise IndexError)
    by by_evaluation.
  split; [by_evaluation|]. split; [by_evaluation|]. split; [by_evaluation|].
  split; [exact E|]. rewrite E. discriminate.
Qed.

(** ** The cross-match identifier *)

(** What the code stores as the cross-match identifier: the second token
    of metadata line 0 without its leading and its trailing characters
    among "2", "M", "A", "S", " " and "J". *)
Lemma twomassid_stripped_at_both_ends lcfname content lcdict :
  read_text_lc lcfname content = Ok lcdict ->
  exists line0 first second,
    metadata_lines (Str.split LF content) !! 0%nat = Some line0 /\
    Str.split " - " line0 = [first; second] /\
    lcdict !! "twomassid"
      = Some (Scalar (PyStr (Str.strip_chars "2MASS J" second))).
Proof.
  intros Hread.
  apply read_text_lc_Ok in Hread
    as (info & filters & columns & cd & Hinfo & _ & _ & ->).
  apply parse_objectinfo_Ok in Hinfo
    as (line0 & _ & _ & H0 & Hsplit & _).
  exists line0, (hatid info), (twomassid info).
  repeat (split; [done|]). apply write_metadata_twomassid.
Qed.

(** C6 on the two-filter file, whose metadata line 0 ends with
    "2MASS J22334455+1122332": the identifier without its prefix is
    "22334455+1122332", the record holds "334455+112233". *)
Lemma twomassid_loses_digits :
  bind (read_text_lc "lc.csv" two_filter_content)
       (fun lcdict => Ok (lcdict !! "twomassid"))
    = Ok (Some (Scalar (PyStr "334455+112233"))) /\
  "334455+112233" <> "22334455+1122332".
Proof. split; [by_evaluation | discriminate]. Qed.

(** ** Names of no known format *)

(** C7, as amended. For a name with none of ".fits", ".csv" and ".hatlc"
    the file is opened, nothing is read or printed, and the call returns
    [None] without raising; only the failure to open the file is
    reported. *)
Theorem unknown_format_returns_none {handle : Type}
    (open_stream : compression -> string -> result handle)
    (read_decode : handle -> result string)
    (pyfits_open : handle -> result hdulist)
    (HAVEPYFITS : bool) (hatlc : string) :
  Str.contains ".fits" (Str.basename hatlc) = false ->
  Str.contains ".csv" (Str.basename hatlc) = false ->
  Str.contains ".hatlc" (Str.basename hatlc) = false ->
  read_hatlc open_stream read_decode pyfits_open HAVEPYFITS hatlc
  = ([], bind (open_stream (sniff_compression (Str.basename hatlc)) hatlc)
              (fun _ => Ok None)).
Proof.
  intros Hfits Hcsv Hhatlc. unfold read_hatlc.
  destruct (open_stream _ hatlc) as [lcf|e]; [|done].
  by rewrite Hfits, Hcsv, Hhatlc.
Qed.

Lemma unknown_format_returns_none_witness :
  read_one_file scenario_content true "/data/lightcurve.txt.gz" = ([], Ok None).
Proof.
  apply (unknown_format_returns_none open_one (read_one scenario_content)
           fits_one true "/data/lightcurve.txt.gz"); reflexivity.
Defined.

(** C7, as stated, fails: for the name lightcurve.txt the call returns
    [None] and raises nothing. *)
Lemma unknown_format_is_silent :
  read_one_file scenario_content true "lightcurve.txt" = ([], Ok None) /\
  ~ raises (snd (read_one_file scenario_content true "lightcurve.txt")).
Proof. split; [reflexivity | simpl; tauto]. Qed.

(** ** FITS files without a FITS library *)

Lemma contains_app_r sub a b :
  Str.contains sub b = true -> Str.contains sub (a +:+ b) = true.
Proof.
  intros H. induction a as [|c a IH]; [exact H|].
  change (String c a +:+ b) with (String c (a +:+ b)).
  cbn [Str.contains]. rewrite IH. apply orb_true_r.
Qed.

(** The branch of lines 232-235, taken alone: with [HAVEPYFITS] false, a
    name with ".fits" and a file that opens, the call prints a message
    that names the pyfits module and returns [None]. *)
Lemma read_hatlc_without_pyfits {handle : Type}
    (open_stream : compression -> string -> result handle)
    (read_decode : handle -> result string)
    (pyfits_open : handle -> result hdulist) (hatlc : string) (lcf : handle) :
  Str.contains ".fits" (Str.basename hatlc) = true ->
  open_stream (sniff_compression (Str.basename hatlc)) hatlc = Ok lcf ->
  read_hatlc open_stream read_decode pyfits_open false hatlc
  = ([cant_read_message (Str.basename hatlc)], Ok None) /\
  Str.contains "pyfits" (cant_read_message (Str.basename hatlc)) = true.
Proof.
  intros Hfits Hopen. unfold read_hatlc. rewrite Hopen, Hfits. simpl.
  split; [done|]. unfold cant_read_message.
  do 2 apply contains_app_r. reflexivity.
Qed.

(** The module never finishes its import with [HAVEPYFITS] false. *)
Lemma HAVEPYFITS_after_import pyfits_installed astropy_installed printed flag :
  import_oldhatlc pyfits_installed astropy_installed = (printed, Ok flag) ->
  flag = true.
Proof.
  unfold import_oldhatlc.
  destruct pyfits_installed, astropy_installed; simpl; congruence.
Qed.

(** C8 with neither pyfits nor astropy installed: whatever the path, the
    import prints its message and ends with [ImportError]; [read_hatlc]
    is not reached. *)
Theorem without_fits_library_import_fails {handle : Type}
    (open_stream : compression -> string -> result handle)
    (read_decode : handle -> result string)
    (pyfits_open : handle -> result hdulist) (hatlc : string) :
  import_and_read open_stream read_decode pyfits_open false false hatlc
  = ([no_pyfits_message], Raise ImportError).
Proof. reflexivity. Qed.

(** ** Compression and format *)

(** The precedence of the checks of [read_hatlc], in full. *)
Lemma read_hatlc_dispatch {handle : Type}
    (open_stream : compression -> string -> result handle)
    (read_decode : handle -> result string)
    (pyfits_open : handle -> result hdulist)
    (HAVEPYFITS : bool) (hatlc : string) :
  let lcfname := Str.basename hatlc in
  let compression :=
    if Str.contains ".gz" lcfname then Gzip
    else if Str.contains ".bz2" lcfname then Bz2
    else Plain in
  read_hatlc open_stream read_decode pyfits_open HAVEPYFITS hatlc =
  match open_stream compression hatlc with
  | Raise e => ([], Raise e)
  | Ok lcf =>
      if Str.contains ".fits" lcfname then
        if HAVEPYFITS
        then ([], do lcdict <- read_fits_lc pyfits_open lcf; Ok (Some lcdict))
        else ([cant_read_message lcfname], Ok None)
      else if Str.contains ".csv" lcfname then
        ([], do content <- read_decode lcf;
             do lcdict <- decode_comma_text content;
             Ok (Some lcdict))
      else if Str.contains ".hatlc" lcfname then
        ([], do content <- read_decode lcf;
             do lcdict <- decode_whitespace_text content;
             Ok (Some lcdict))
      else ([], Ok None)
  end.
Proof.
  cbv zeta. unfold read_hatlc, sniff_compression.
  destruct (open_stream _ hatlc) as [lcf|e]; [|done].
  destruct (Str.contains ".fits" _); [by destruct HAVEPYFITS|].
  cbn [andb orb].
  destruct (Str.contains ".csv" (Str.basename hatlc)) eqn:Hcsv; cbn [orb].
  - f_equal. destruct (read_decode lcf) as [content|]; [|done]. cbn [bind].
    unfold read_text_lc. by rewrite (decode_lines_comma _ _ Hcsv).
  - destruct (Str.contains ".hatlc" _); [|done].
    f_equal. destruct (read_decode lcf) as [content|]; [|done]. cbn [bind].
    unfold read_text_lc. by rewrite (decode_lines_whitespace _ _ Hcsv).
Qed.

(** C9, as amended. A file whose name has ".csv" and ".gz" and has not
    ".fits" is opened with gzip and its content is decoded as
    comma-separated text. In general the decompressor is chosen by ".gz",
    then ".bz2", the format by ".fits", then ".csv", then ".hatlc", and
    neither choice looks at the other. *)
Theorem csv_gz_is_gunzipped_comma_text {handle : Type}
    (open_stream : compression -> string -> result handle)
    (read_decode : handle -> result string)
    (pyfits_open : handle -> result hdulist)
    (HAVEPYFITS : bool) (hatlc : string) :
  Str.contains ".csv" (Str.basename hatlc) = true ->
  Str.contains ".gz" (Str.basename hatlc) = true ->
  Str.contains ".fits" (Str.basename hatlc) = false ->
  read_hatlc open_stream read_decode pyfits_open HAVEPYFITS hatlc
  = ([], do lcf <- open_stream Gzip hatlc;
         do content <- read_decode lcf;
         do lcdict <- decode_comma_text content;
         Ok (Some lcdict)) /\
  forall hatlc',
    let lcfname := Str.basename hatlc' in
    let compression :=
      if Str.contains ".gz" lcfname then Gzip
      else if Str.contains ".bz2" lcfname then Bz2
      else Plain in
    read_hatlc open_stream read_decode pyfits_open HAVEPYFITS hatlc' =
    match open_stream compression hatlc' with
    | Raise e => ([], Raise e)
    | Ok lcf =>
        if Str.contains ".fits" lcfname then
          if HAVEPYFITS
          then ([], do lcdict <- read_fits_lc pyfits_open lcf; Ok (Some lcdict))
          else ([cant_read_message lcfname], Ok None)
        else if Str.contains ".csv" lcfname then
          ([], do content <- read_decode lcf;
               do lcdict <- decode_comma_text content;
               Ok (Some lcdict))
        else if Str.contains ".hatlc" lcfname then
          ([], do content <- read_decode lcf;
               do lcdict <- decode_whitespace_text content;
               Ok (Some lcdict))
        else ([], Ok None)
    end.
Proof.
  intros Hcsv Hgz Hfits. split; [|intros; apply read_hatlc_dispatch].
  rewrite read_hatlc_dispatch. cbv zeta. rewrite Hgz, Hfits, Hcsv.
  by destruct (open_stream Gzip hatlc).
Qed.

Lemma csv_gz_is_gunzipped_comma_text_witness :
  read_one_file two_filter_content true "/data/HAT-200-0001234.csv.gz"
  = ([], do lcf <- open_one Gzip "/data/HAT-200-0001234.csv.gz";
         do content <- read_one two_filter_content lcf;
         do lcdict <- decode_comma_text content;
         Ok (Some lcdict)).
Proof.
  apply (csv_gz_is_gunzipped_comma_text open_one (read_one two_filter_content)
           fits_one true "/data/HAT-200-0001234.csv.gz"); reflexivity.
Defined.

(** C9, as stated, fails: the name lc.fits.csv.gz has ".csv" and ".gz",
    and the file is handed to the FITS library, which here reads it as an
    empty table, although its content decodes as comma-separated text to
    a record with the columns BJD, RM1 and FLT. *)
Lemma fits_takes_precedence_over_csv :
  Str.contains ".csv" (Str.basename "lc.fits.csv.gz") = true /\
  Str.contains ".gz" (Str.basename "lc.fits.csv.gz") = true /\
  returned_entry
    (read_hatlc open_one (read_one two_filter_content) fits_any true
       "lc.fits.csv.gz") "columns" = Some (PyList []) /\
  returned_entry
    ([], do lcdict <- decode_comma_text two_filter_content; Ok (Some lcdict))
    "cols" = Some (PyList [PyStr "BJD"; PyStr "RM1"; PyStr "FLT"]) /\
  read_hatlc open_one (read_one two_filter_content) fits_any true
    "lc.fits.csv.gz"
  <> ([], do lcf <- open_one Gzip "lc.fits.csv.gz";
          do content <- read_one two_filter_content lcf;
          do lcdict <- decode_comma_text content;
          Ok (Some lcdict)).
Proof.
  split; [reflexivity|]. split; [reflexivity|].
  split; [by_evaluation|]. split; [by_evaluation|].
  intros H.
  assert (E : returned_entry
                (read_hatlc open_one (read_one two_filter_content) fits_any
                   true "lc.fits.csv.gz") "cols"
              = returned_entry
                  ([], do lcf <- open_one Gzip "lc.fits.csv.gz";
                       do content <- read_one two_filter_content lcf;
                       do lcdict <- decode_comma_text content;
                       Ok (Some lcdict)) "cols") by (by rewrite H).
  vm_compute in E. discriminate E.
Qed.

(** ** Lines of at most one character *)

Lemma append_cons (c : ascii) (s t : string) :
  String c s +:+ t = String c (s +:+ t).
Proof. reflexivity. Qed.

Lemma contains_LF_cons (c : ascii) (s : string) :
  Str.contains LF (String c s) = Ascii.eqb c "010" || Str.contains LF s.
Proof.
  cbn [Str.contains String.prefix LF].
  destruct (ascii_dec "010" c) as [<-|Hne].
  - by destruct s.
  - rewrite (proj2 (Ascii.eqb_neq c "010")) by congruence. done.
Qed.

Lemma prefix_LF_cons (c : ascii) (s : string) :
  String.prefix LF (String c s) = Ascii.eqb c "010".
Proof.
  cbn [String.prefix LF].
  destruct (ascii_dec "010" c) as [<-|Hne].
  - by destruct s.
  - by rewrite (proj2 (Ascii.eqb_neq c "010")) by congruence.
Qed.

(** A string without line feed is one line. *)
Lemma split_LF_line (x : string) :
  Str.contains LF x = false -> Str.split LF x = [x].
Proof.
  unfold Str.split. induction x as [|c x IH]; [done|].
  rewrite contains_LF_cons. intros [Hc Hx]%orb_false_iff.
  cbn [Str.split_from]. rewrite prefix_LF_cons, Hc, (IH Hx). done.
Qed.

Lemma split_LF_app (x rest : string) :
  Str.contains LF x = false ->
  Str.split LF (x +:+ LF +:+ rest) = x :: Str.split LF rest.
Proof.
  unfold Str.split. induction x as [|c x IH].
  - intros _. change ("" +:+ LF +:+ rest) with (String "010" rest).
    cbn [Str.split_from]. by rewrite prefix_LF_cons.
  - rewrite contains_LF_cons. intros [Hc Hx]%orb_false_iff.
    rewrite append_cons. cbn [Str.split_from].
    rewrite prefix_LF_cons, Hc, (IH Hx). done.
Qed.

(** Splitting at line feeds gives back the lines that were joined. *)
Lemma split_join_LF (lines : list string) :
  lines <> [] ->
  Forall (fun x => Str.contains LF x = false) lines ->
  Str.split LF (Str.join LF lines) = lines.
Proof.
  induction lines as [|x lines IH]; [done|]. intros _ HF.
  apply Forall_cons in HF as [Hx HF].
  destruct lines as [|y lines].
  - by apply split_LF_line.
  - cbn [Str.join]. rewrite (split_LF_app _ _ Hx). f_equal. by apply IH.
Qed.

Lemma data_lines_app (l1 l2 : list string) :
  data_lines (l1 ++ l2) = data_lines l1 ++ data_lines l2.
Proof. unfold data_lines. by rewrite !List.filter_app. Qed.

Lemma metadata_lines_app (l1 l2 : list string) :
  metadata_lines (l1 ++ l2) = metadata_lines l1 ++ metadata_lines l2.
Proof.
  unfold metadata_lines.
  by rewrite List.filter_app, !map_app, List.filter_app.
Qed.

Lemma data_lines_spec (x : string) (lcflines : list string) :
  x ∈ data_lines lcflines <->
  x ∈ lcflines /\ is_comment x = false /\ (1 < Str.len x)%nat.
Proof.
  unfold data_lines. rewrite !list_elem_of_In, !filter_In.
  rewrite negb_true_iff, Nat.ltb_lt. tauto.
Qed.

(** A line of at most one character is never a data line, and a line
    that does not start with "#" is never a metadata line. *)
Lemma short_line_no_data (x : string) :
  (Str.len x <= 1)%nat -> data_lines [x] = [].
Proof.
  intros H. unfold data_lines. cbn [List.filter].
  destruct (negb (is_comment x)); [|done]. cbn [List.filter].
  destruct (Nat.ltb_spec 1 (Str.len x)); [lia | done].
Qed.

Lemma non_comment_no_metadata (x : string) :
  is_comment x = false -> metadata_lines [x] = [].
Proof. intros H. unfold metadata_lines. cbn [List.filter]. by rewrite H. Qed.

Lemma one_character_not_comment (c : ascii) :
  c <> "#"%char -> is_comment (String c "") = false.
Proof.
  intros Hc. unfold is_comment, Str.startswith. cbn [String.prefix].
  destruct (ascii_dec "#" c) as [<-|_]; [done | reflexivity].
Qed.

(** C10. The data lines are the lines that do not start with "#" and are
    longer than one character. A line of one character other than "#"
    leaves no trace: the file with it, the file with an empty line in its
    place and the file without it are decoded alike, and only lines that
    start with "#" reach the metadata. *)
Theorem one_character_line_discarded lcfname (before after : list string)
    (c : ascii) :
  c <> "#"%char ->
  c <> "010"%char ->
  Forall (fun x => Str.contains LF x = false) (before ++ after) ->
  (forall x lcflines,
     x ∈ data_lines lcflines <->
     x ∈ lcflines /\ is_comment x = false /\ (1 < Str.len x)%nat) /\
  (forall x l1 l2,
     is_comment x = false ->
     metadata_lines (l1 ++ x :: l2) = metadata_lines (l1 ++ l2)) /\
  data_lines (Str.split LF (Str.join LF (before ++ String c "" :: after)))
    = data_lines (before ++ after) /\
  read_text_lc lcfname (Str.join LF (before ++ String c "" :: after))
    = read_text_lc lcfname (Str.join LF (before ++ "" :: after)) /\
  read_text_lc lcfname (Str.join LF (before ++ String c "" :: after))
    = decode_lines lcfname (before ++ after).
Proof.
  intros Hhash Hlf HF.
  assert (Hmeta : forall x l1 l2,
             is_comment x = false ->
             metadata_lines (l1 ++ x :: l2) = metadata_lines (l1 ++ l2)).
  { intros x l1 l2 Hx. rewrite (cons_middle x), !metadata_lines_app.
    by rewrite (non_comment_no_metadata x Hx). }
  assert (Hdata : forall x l1 l2,
             (Str.len x <= 1)%nat ->
             data_lines (l1 ++ x :: l2) = data_lines (l1 ++ l2)).
  { intros x l1 l2 Hx. rewrite (cons_middle x), !data_lines_app.
    by rewrite (short_line_no_data x Hx). }
  assert (Hsplit : forall x,
             Str.contains LF x = false ->
             Str.split LF (Str.join LF (before ++ x :: after))
             = before ++ x :: after).
  { intros x Hx. apply split_join_LF; [by destruct before|].
    apply Forall_app in HF as [Hb Ha]. apply Forall_app. split; [done|].
    by apply Forall_cons. }
  assert (Hc : Str.contains LF (String c "") = false).
  { rewrite contains_LF_cons. rewrite (proj2 (Ascii.eqb_neq c "010") Hlf).
    reflexivity. }
  assert (Hnc := one_character_not_comment c Hhash).
  assert (Hone : decode_lines lcfname (before ++ String c "" :: after)
                 = decode_lines lcfname (before ++ after)).
  { unfold decode_lines. rewrite Hdata by (simpl; lia). by rewrite Hmeta. }
  split; [exact data_lines_spec|]. split; [exact Hmeta|].
  split; [rewrite (Hsplit _ Hc); apply Hdata; simpl; lia|].
  unfold read_text_lc. rewrite (Hsplit _ Hc), (Hsplit "" eq_refl), Hone.
  split; [|done].
  unfold decode_lines. rewrite Hdata by (simpl; lia). by rewrite Hmeta.
Qed.

Lemma one_character_line_discarded_witness :
  read_text_lc "HAT-123-4567.hatlc"
    (Str.join LF (take 12 scenario_lines ++ "7" :: drop 12 scenario_lines))
  = decode_lines "HAT-123-4567.hatlc"
      (take 12 scenario_lines ++ drop 12 scenario_lines).
Proof.
  apply (one_character_line_discarded "HAT-123-4567.hatlc"
           (take 12 scenario_lines) (drop 12 scenario_lines) "7").
  - discriminate.
  - discriminate.
  - repeat (constructor; [reflexivity|]). constructor.
Defined.

(** * Further properties of the reader *)

Local Set Warnings "-clear-no-such-hyp".

(** ** Failures of the text decoder *)

Lemma unpack6_Ok {A : Type} (l : list A) (a b c d e f : A) :
  unpack6 l = Ok (a, b, c, d, e, f) -> l = [a; b; c; d; e; f].
Proof.
  destruct l as [|x1 [|x2 [|x3 [|x4 [|x5 [|x6 [|x7 l]]]]]]]; simpl;
    intros H; try discriminate.
  by injection H as <- <- <- <- <- <-.
Qed.

(** The header lines that a successful [parse_objectinfo] has read *)
Lemma parse_objectinfo_inv objectdata info :
  parse_objectinfo objectdata = Ok info ->
  exists line0 line1 line2 line3 line4 r d v1 v2 v3 v4 v5 v6 f1 f2 f3 f4 f5 f6,
    objectdata !! 0%nat = Some line0 /\
    Str.split " - " line0 = [hatid info; twomassid info] /\
    objectdata !! 1%nat = Some line1 /\
    Str.split ", " line1 = [r; d] /\
    degrees_after_equals r = Ok (ra info) /\
    degrees_after_equals d = Ok (dec info) /\
    objectdata !! 2%nat = Some line2 /\
    Str.split ", " line2 = [v1; v2; v3; v4; v5; v6] /\
    float_after_equals v1 = Ok f1 /\ float_after_equals v2 = Ok f2 /\
    float_after_equals v3 = Ok f3 /\ float_after_equals v4 = Ok f4 /\
    float_after_equals v5 = Ok f5 /\ float_after_equals v6 = Ok f6 /\
    mags info = [f1; f2; f3; f4; f5; f6] /\
    objectdata !! 3%nat = Some line3 /\
    objectdata !! 4%nat = Some line4 /\
    getlast (Str.split ": " line4) = Ok (hatstations info).
Proof.
  unfold parse_objectinfo. intros H. inv_binds H. injection H as <-. simpl.
  repeat match goal with
         | E : getitem _ _ = Ok _ |- _ => apply getitem_Ok in E
         | E : unpack2 _ = Ok _ |- _ => apply unpack2_Ok in E
         | E : unpack6 _ = Ok _ |- _ => apply unpack6_Ok in E
         end.
  do 19 eexists. repeat (split; [eassumption || reflexivity|]). eassumption.
Qed.

Lemma parse_objectinfo_five_lines objectdata info :
  parse_objectinfo objectdata = Ok info -> is_Some (objectdata !! 4%nat).
Proof.
  intros H. apply parse_objectinfo_inv in H.
  destruct H as (l0 & l1 & l2 & l3 & l4 & r & d & v1 & v2 & v3 & v4 & v5
                 & v6 & f1 & f2 & f3 & f4 & f5 & f6 & H).
  exists l4. tauto.
Qed.

(** X1. A file without any line that starts with "#" has no header: the
    decoder stops with [IndexError] at line 260; with fewer than five
    non-empty comment lines it fails as well. *)
Theorem header_lines_required lcfname content :
  (Forall (fun x => is_comment x = false) (Str.split LF content) ->
   read_text_lc lcfname content = Raise IndexError) /\
  ((length (metadata_lines (Str.split LF content)) < 5)%nat ->
   raises (read_text_lc lcfname content)).
Proof.
  split.
  - intros HF.
    assert (E : metadata_lines (Str.split LF content) = []).
    { unfold metadata_lines.
      induction (Str.split LF content) as [|x l IH]; [done|].
      apply Forall_cons in HF as [Hx HF]. cbn [List.filter]. rewrite Hx.
      by apply IH. }
    unfold read_text_lc, decode_lines, decode_table. by rewrite E.
  - intros Hlen. apply raises_not_Ok. intros lcdict Hread.
    apply read_text_lc_Ok in Hread as (info & ? & ? & ? & Hinfo & _).
    apply parse_objectinfo_five_lines in Hinfo as [l4 H4].
    apply lookup_lt_Some in H4. lia.
Qed.

Lemma header_lines_required_witness :
  read_text_lc "lc.hatlc" (file_of_lines (drop 11 scenario_lines))
    = Raise IndexError /\
  raises (read_text_lc "lc.hatlc" (file_of_lines (take 4 scenario_lines))).
Proof.
  split.
  - apply (proj1 (header_lines_required "lc.hatlc"
                    (file_of_lines (drop 11 scenario_lines)))).
    repeat (constructor; [reflexivity|]). constructor.
  - apply (proj2 (header_lines_required "lc.hatlc"
                    (file_of_lines (take 4 scenario_lines)))).
    vm_compute. lia.
Defined.

Lemma heads_tails_empty_row {A : Type} (rows : list (list A)) :
  [] ∈ rows -> heads_tails rows = None.
Proof.
  induction rows as [|row rows IH]; intros Hin.
  - by apply elem_of_nil in Hin.
  - apply elem_of_cons in Hin as [<-|Hin]; [done|].
    destruct row as [|x r]; [done|]. cbn [heads_tails]. by rewrite (IH Hin).
Qed.

(** Nothing is left of the transposition when there is no row or when
    some row has no field. *)
Lemma zip_star_empty {A : Type} (rows : list (list A)) :
  rows = [] \/ [] ∈ rows -> zip_star rows = [].
Proof.
  intros [->|Hin]; [done|].
  destruct rows as [|[|x r] rows]; [done..|].
  cbn [zip_star zip_rows]. by rewrite (heads_tails_empty_row _ Hin).
Qed.

Lemma decode_table_no_tuple rows objectdata info filters col columns :
  parse_objectinfo objectdata = Ok info ->
  parse_sections objectdata = Ok (filters, col :: columns) ->
  rows = [] \/ [] ∈ rows ->
  decode_table rows objectdata = Raise IndexError.
Proof.
  intros Hinfo Hsec Hrows. unfold decode_table.
  rewrite Hinfo, Hsec, (zip_star_empty _ Hrows). reflexivity.
Qed.

(** X2. A file whose header is well formed and whose legend names at least
    one column cannot be read when it holds no data line: the first
    column finds no tuple and the call stops with [IndexError]. *)
Theorem no_data_line_IndexError lcfname content info filters col columns :
  parse_objectinfo (metadata_lines (Str.split LF content)) = Ok info ->
  parse_sections (metadata_lines (Str.split LF content))
    = Ok (filters, col :: columns) ->
  data_lines (Str.split LF content) = [] ->
  read_text_lc lcfname content = Raise IndexError.
Proof.
  intros Hinfo Hsec Hdata. unfold read_text_lc, decode_lines.
  apply (decode_table_no_tuple _ _ _ _ _ _ Hinfo Hsec). left.
  unfold split_rows. rewrite Hdata. by destruct (Str.contains _ _).
Qed.

Lemma no_data_line_IndexError_witness :
  read_text_lc "lc.hatlc" (file_of_lines no_data_lines) = Raise IndexError.
Proof.
  apply (no_data_line_IndexError "lc.hatlc" (file_of_lines no_data_lines)
           (header_of (file_of_lines no_data_lines))
           ["Filters used:"; "r"] "BJD" []).
  - by_evaluation.
  - by_evaluation.
  - by_evaluation.
Defined.

Lemma split_ws_from_all_space (s : string) :
  all_space s = true -> Str.split_ws_from None s = [].
Proof.
  induction s as [|c s IH]; [done|]. cbn [all_space Str.split_ws_from].
  intros [Hc Hs]%andb_true_iff. rewrite Hc. cbn. by apply IH.
Qed.

Lemma all_space_not_comment (x : string) :
  all_space x = true -> is_comment x = false.
Proof.
  destruct x as [|c x]; [done|]. cbn [all_space].
  intros [Hc _]%andb_true_iff. unfold is_comment, Str.startswith.
  cbn [String.prefix]. destruct (ascii_dec "#" c) as [<-|_]; [done|].
  reflexivity.
Qed.

(** X3. In a whitespace-delimited file a line of two or more white-space
    characters is kept as a data line and has no field; with a well-formed
    header and a legend of at least one column the whole call then stops
    with [IndexError], whatever the other lines hold. *)
Theorem blank_line_IndexError lcfname content info filters col columns x :
  Str.contains ".csv" lcfname = false ->
  parse_objectinfo (metadata_lines (Str.split LF content)) = Ok info ->
  parse_sections (metadata_lines (Str.split LF content))
    = Ok (filters, col :: columns) ->
  x ∈ Str.split LF content ->
  all_space x = true ->
  (1 < Str.len x)%nat ->
  read_text_lc lcfname content = Raise IndexError.
Proof.
  intros Hcsv Hinfo Hsec Hin Hsp Hlen. unfold read_text_lc, decode_lines.
  apply (decode_table_no_tuple _ _ _ _ _ _ Hinfo Hsec). right.
  unfold split_rows. rewrite Hcsv.
  apply list_elem_of_fmap. exists x. split.
  - symmetry. by apply split_ws_from_all_space.
  - apply data_lines_spec. split; [done|].
    split; [by apply all_space_not_comment | done].
Qed.

Lemma blank_line_IndexError_witness :
  read_text_lc "lc.hatlc" (file_of_lines (scenario_lines ++ ["   "]))
    = Raise IndexError.
Proof.
  apply (blank_line_IndexError "lc.hatlc"
           (file_of_lines (scenario_lines ++ ["   "]))
           (header_of (file_of_lines (scenario_lines ++ ["   "])))
           ["Filters used:"; "(header)"; "r"] "BJD" ["IM1"] "   ").
  - reflexivity.
  - by_evaluation.
  - by_evaluation.
  - vm_compute. do 13 right. left.
  - reflexivity.
  - simpl. lia.
Defined.

Lemma index_of_absent (x : string) (l : list string) :
  x ∉ l -> index_of x l = Raise ValueError.
Proof.
  induction l as [|y l IH]; [done|]. intros [Hne Hl]%not_elem_of_cons.
  cbn [index_of]. destruct (String.eqb_spec y x) as [->|_]; [done|].
  by rewrite (IH Hl).
Qed.

Lemma index_of_Raise (x : string) (l : list string) (e : exn) :
  index_of x l = Raise e -> e = ValueError.
Proof.
  induction l as [|y l IH]; cbn [index_of]; [congruence|].
  destruct (String.eqb y x); [discriminate|].
  destruct (index_of x l); [discriminate|].
  cbn [bind]. intros [= <-]. by apply IH.
Qed.

Lemma index_of_Ok_elem (x : string) (l : list string) (i : nat) :
  index_of x l = Ok i -> x ∈ l.
Proof.
  intros H. destruct (decide (x ∈ l)) as [|Hn]; [done|].
  rewrite (index_of_absent _ _ Hn) in H. discriminate.
Qed.

(** X4. Both section markers are needed: with a well-formed header and no
    line "Filters used:" or no line "Columns:" among the metadata lines,
    the call stops with [ValueError]; a returned record comes from a file
    that has both. *)
Theorem section_markers_required lcfname content :
  (forall info marker,
     parse_objectinfo (metadata_lines (Str.split LF content)) = Ok info ->
     marker = "Filters used:" \/ marker = "Columns:" ->
     marker ∉ metadata_lines (Str.split LF content) ->
     read_text_lc lcfname content = Raise ValueError) /\
  (forall lcdict,
     read_text_lc lcfname content = Ok lcdict ->
     "Filters used:" ∈ metadata_lines (Str.split LF content) /\
     "Columns:" ∈ metadata_lines (Str.split LF content)).
Proof.
  split.
  - intros info marker Hinfo Hm Hnot.
    unfold read_text_lc, decode_lines, decode_table. rewrite Hinfo.
    cbn [bind]. unfold parse_sections.
    destruct Hm as [-> | ->].
    + rewrite (index_of_absent _ _ Hnot). reflexivity.
    + rewrite (index_of_absent "Columns:" _ Hnot).
      destruct (index_of "Filters used:" _) as [i|e] eqn:E; [reflexivity|].
      by rewrite (index_of_Raise _ _ _ E).
  - intros lcdict Hread.
    apply read_text_lc_Ok in Hread as (info & f & c & cd & _ & Hsec & _).
    unfold parse_sections in Hsec. inv_bind Hsec. inv_bind Hsec.
    split; eapply index_of_Ok_elem; eassumption.
Qed.

Lemma section_markers_required_witness :
  read_text_lc "lc.hatlc" (file_of_lines (take 5 scenario_lines))
    = Raise ValueError /\
  "Filters used:" ∈ metadata_lines (Str.split LF scenario_content) /\
  "Columns:" ∈ metadata_lines (Str.split LF scenario_content).
Proof.
  split.
  - apply (proj1 (section_markers_required "lc.hatlc"
                    (file_of_lines (take 5 scenario_lines)))
             (header_of (file_of_lines (take 5 scenario_lines))) "Columns:").
    + by_evaluation.
    + by right.
    + vm_compute. not_in_list.
  - apply (proj2 (section_markers_required "HAT-123-4567.hatlc"
                    scenario_content) scenario_record).
    by_evaluation.
Defined.

(** ** The binary-table decoder *)

Lemma copy_columns_Ok hdul lccols :
  forall d0 d,
    copy_columns hdul lccols d0 = Ok d ->
    (forall col, col ∈ lccols ->
       exists values, column_data hdul col = Some values /\
                      d !! col = Some (NpArray values)) /\
    (forall k, k ∉ lccols -> d !! k = d0 !! k).
Proof.
  induction lccols as [|c lccols IH]; cbn [copy_columns]; intros d0 d H.
  - injection H as <-. split; [|done]. intros col Hc.
    by apply elem_of_nil in Hc.
  - destruct (column_data hdul c) as [values|] eqn:Ec; [|discriminate].
    destruct (IH _ _ H) as [IH1 IH2]. split.
    + intros col Hcol. destruct (decide (col ∈ lccols)) as [Hin|Hnin].
      * by apply IH1.
      * apply elem_of_cons in Hcol as [->|Hcol]; [|done].
        exists values. split; [done|]. rewrite (IH2 _ Hnin).
        apply lookup_insert_eq.
    + intros k [Hne Hk]%not_elem_of_cons. rewrite (IH2 _ Hk).
      by apply lookup_insert_ne.
Qed.

Lemma card_Ok hdul key v :
  card hdul key = Ok v <-> header_card hdul key = Some v.
Proof. unfold card. destruct (header_card hdul key); split; congruence. Qed.

(** What a returned call of [read_fits_lc] has read and stored *)
Lemma read_fits_lc_Ok {handle : Type}
    (pyfits_open : handle -> result hdulist) (lcf : handle) lcdict :
  read_fits_lc pyfits_open lcf = Ok lcdict ->
  exists hdul cd c1 c2 c3 c4 ms c5 c6 c7,
    pyfits_open lcf = Ok hdul /\
    copy_columns hdul (column_names hdul) ∅ = Ok cd /\
    header_card hdul "hatid" = Some c1 /\
    header_card hdul "2massid" = Some c2 /\
    header_card hdul "ra" = Some c3 /\
    header_card hdul "dec" = Some c4 /\
    mapM (card hdul) ["vmag"; "rmag"; "imag"; "jmag"; "hmag"; "kmag"]
      = Ok ms /\
    header_card hdul "ndet" = Some c5 /\
    header_card hdul "hats" = Some c6 /\
    header_card hdul "filters" = Some c7 /\
    lcdict =
      <["columns" := PyList (map PyStr (column_names hdul))]>
        (<["filters" := Scalar c7]>
           (<["hatstations" := Scalar c6]>
              (<["ndet" := Scalar c5]>
                 (<["mags" := PyList ms]>
                    (<["dec" := Scalar c4]>
                       (<["ra" := Scalar c3]>
                          (<["twomassid" := Scalar c2]>
                             (<["hatid" := Scalar c1]> cd)))))))).
Proof.
  unfold read_fits_lc. intros H.
  inv_bind H. inv_bind H. inv_bind H. inv_bind H. inv_bind H. inv_bind H.
  inv_bind H. inv_bind H. inv_bind H. inv_bind H. injection H as <-.
  repeat match goal with
         | E : card _ _ = Ok _ |- _ => apply card_Ok in E
         end.
  do 10 eexists. repeat (split; [eassumption|]). reflexivity.
Qed.

Ltac lookup_inserted :=
  repeat first [apply lookup_insert_eq | rewrite lookup_insert_ne by done].

Lemma fits_record_other hdul (cd : gmap string pyval)
    c1 c2 c3 c4 ms c5 c6 c7 k :
  k ∉ fits_record_keys ->
  (<["columns" := PyList (map PyStr (column_names hdul))]>
     (<["filters" := Scalar c7]>
        (<["hatstations" := Scalar c6]>
           (<["ndet" := Scalar c5]>
              (<["mags" := PyList ms]>
                 (<["dec" := Scalar c4]>
                    (<["ra" := Scalar c3]>
                       (<["twomassid" := Scalar c2]>
                          (<["hatid" := Scalar c1]> cd)))))))))
    !! k = cd !! k.
Proof.
  intros Hk. unfold fits_record_keys in Hk.
  repeat (apply not_elem_of_cons in Hk as [? Hk]).
  by repeat (rewrite lookup_insert_ne by done).
Qed.

Lemma sample_fits_reads :
  read_fits_lc (fits_sample []) tt = Ok sample_fits_record.
Proof. by_evaluation. Qed.

(** X5. The record of a binary table: the column names are stored, in the
    order of the table, under the key "columns" (the text decoder uses
    "cols"); every column whose name is not one of the nine metadata keys
    is stored under its name with its data, whether the schema table
    knows the name or not, and no other key is added. *)
Theorem fits_record_columns {handle : Type}
    (pyfits_open : handle -> result hdulist) (lcf : handle) hdul lcdict :
  pyfits_open lcf = Ok hdul ->
  read_fits_lc pyfits_open lcf = Ok lcdict ->
  lcdict !! "columns" = Some (PyList (map PyStr (column_names hdul))) /\
  (forall col,
     col ∈ column_names hdul -> col ∉ fits_record_keys ->
     exists values,
       column_data hdul col = Some values /\
       lcdict !! col = Some (NpArray values)) /\
  (forall k,
     k ∉ column_names hdul -> k ∉ fits_record_keys -> lcdict !! k = None).
Proof.
  intros Hopen Hread.
  apply read_fits_lc_Ok in Hread
    as (hdul' & cd & c1 & c2 & c3 & c4 & ms & c5 & c6 & c7 & Hopen' & Hcopy
        & _ & _ & _ & _ & _ & _ & _ & _ & ->).
  rewrite Hopen in Hopen'. injection Hopen' as <-.
  destruct (copy_columns_Ok _ _ _ _ Hcopy) as [Hcols Hother].
  split; [apply lookup_insert_eq|]. split.
  - intros col Hin Hk. destruct (Hcols col Hin) as (values & Hdata & Hcd).
    exists values. split; [done|]. by rewrite fits_record_other.
  - intros k Hk Hrk. rewrite fits_record_other by done.
    by rewrite (Hother k Hk).
Qed.

Lemma fits_record_columns_witness :
  exists lcdict,
    read_fits_lc (fits_sample []) tt = Ok lcdict /\
    lcdict !! "columns" = Some (PyList [PyStr "BJD"; PyStr "XYZ"; PyStr "ra"]) /\
    lcdict !! "XYZ" = Some (NpArray [PyStr "XYZ-0"; PyStr "XYZ-1"]) /\
    lcdict !! "cols" = None.
Proof.
  exists sample_fits_record. split; [exact sample_fits_reads|].
  destruct (fits_record_columns (fits_sample []) tt (sample_table [])
              sample_fits_record eq_refl sample_fits_reads)
    as (Hc & Hcol & Hnone).
  split; [exact Hc|]. split.
  - destruct (Hcol "XYZ") as (values & Hdata & Hl).
    + right. left.
    + not_in_list.
    + vm_compute in Hdata. by injection Hdata as <-.
  - apply Hnone; not_in_list.
Defined.

Lemma mapM_six {A B : Type} (f : A -> result B) (a1 a2 a3 a4 a5 a6 : A) ys :
  mapM f [a1; a2; a3; a4; a5; a6] = Ok ys ->
  exists b1 b2 b3 b4 b5 b6,
    f a1 = Ok b1 /\ f a2 = Ok b2 /\ f a3 = Ok b3 /\ f a4 = Ok b4 /\
    f a5 = Ok b5 /\ f a6 = Ok b6 /\ ys = [b1; b2; b3; b4; b5; b6].
Proof.
  cbn [mapM].
  destruct (f a1) as [b1|]; [|discriminate].
  destruct (f a2) as [b2|]; [|discriminate].
  destruct (f a3) as [b3|]; [|discriminate].
  destruct (f a4) as [b4|]; [|discriminate].
  destruct (f a5) as [b5|]; [|discriminate].
  destruct (f a6) as [b6|]; [|discriminate].
  cbn [bind]. intros [= <-]. by exists b1, b2, b3, b4, b5, b6.
Qed.

(** X6. The metadata of the record of a binary table are the cards of the
    primary header, as they are: "2massid" is stored under "twomassid"
    without any stripping, "hats" under "hatstations" as one value, and
    the six magnitudes in the order V, R, I, J, H, K. A table column with
    the name of a metadata key is overwritten by the card. *)
Theorem fits_record_metadata {handle : Type}
    (pyfits_open : handle -> result hdulist) (lcf : handle) hdul lcdict :
  pyfits_open lcf = Ok hdul ->
  read_fits_lc pyfits_open lcf = Ok lcdict ->
  (forall card_key record_key,
     (card_key, record_key) ∈
       [("hatid", "hatid"); ("2massid", "twomassid"); ("ra", "ra");
        ("dec", "dec"); ("ndet", "ndet"); ("hats", "hatstations");
        ("filters", "filters")] ->
     exists v, header_card hdul card_key = Some v /\
               lcdict !! record_key = Some (Scalar v)) /\
  exists v r i j h k,
    header_card hdul "vmag" = Some v /\ header_card hdul "rmag" = Some r /\
    header_card hdul "imag" = Some i /\ header_card hdul "jmag" = Some j /\
    header_card hdul "hmag" = Some h /\ header_card hdul "kmag" = Some k /\
    lcdict !! "mags" = Some (PyList [v; r; i; j; h; k]).
Proof.
  intros Hopen Hread.
  apply read_fits_lc_Ok in Hread
    as (hdul' & cd & c1 & c2 & c3 & c4 & ms & c5 & c6 & c7 & Hopen' & _
        & H1 & H2 & H3 & H4 & Hms & H5 & H6 & H7 & ->).
  rewrite Hopen in Hopen'. injection Hopen' as <-. split.
  - intros ck rk Hin.
    repeat (apply elem_of_cons in Hin as [[= -> ->]|Hin];
            [eexists; split; [eassumption | lookup_inserted]|]).
    by apply elem_of_nil in Hin.
  - apply mapM_six in Hms
      as (v & r & i & j & h & k & Hv & Hr & Hi & Hj & Hh & Hk & ->).
    apply card_Ok in Hv, Hr, Hi, Hj, Hh, Hk.
    exists v, r, i, j, h, k. repeat (split; [done|]). lookup_inserted.
Qed.

Lemma fits_record_metadata_witness :
  exists lcdict,
    read_fits_lc (fits_sample []) tt = Ok lcdict /\
    lcdict !! "twomassid" = Some (Scalar (PyStr "2massid-card")) /\
    lcdict !! "ra" = Some (Scalar (PyStr "ra-card")).
Proof.
  exists sample_fits_record. split; [exact sample_fits_reads|].
  destruct (fits_record_metadata (fits_sample []) tt (sample_table [])
              sample_fits_record eq_refl sample_fits_reads) as [Hcards _].
  split.
  - destruct (Hcards "2massid" "twomassid") as (v & Hv & Hl);
      [right; left|]. vm_compute in Hv. by injection Hv as <-.
  - destruct (Hcards "ra" "ra") as (v & Hv & Hl); [do 2 right; left|].
    vm_compute in Hv. by injection Hv as <-.
Defined.

(** X7. The binary-table decoder stops with the [KeyError] of the first card,
    in the order hatid, 2massid, ra, dec, vmag, rmag, imag, jmag, hmag,
    kmag, ndet, hats, filters, that the primary header does not have; with
    all of them it returns. *)
Theorem fits_missing_card {handle : Type}
    (pyfits_open : handle -> result hdulist) (lcf : handle) hdul cd :
  pyfits_open lcf = Ok hdul ->
  copy_columns hdul (column_names hdul) ∅ = Ok cd ->
  match first_missing_card hdul with
  | Some key => read_fits_lc pyfits_open lcf = Raise (KeyError key)
  | None => returns (read_fits_lc pyfits_open lcf) = true
  end.
Proof.
  intros Hopen Hcopy.
  unfold read_fits_lc, first_missing_card, fits_card_keys.
  rewrite Hopen. cbn [bind]. rewrite Hcopy. cbn [bind List.find mapM].
  unfold card.
  repeat (match goal with
          | |- context [header_card hdul ?k] =>
              destruct (header_card hdul k); cbn [bind]; [|reflexivity]
          end).
  reflexivity.
Qed.

Lemma fits_missing_card_witness :
  read_fits_lc (fits_sample ["jmag"; "hats"]) tt = Raise (KeyError "jmag").
Proof.
  exact (fits_missing_card (fits_sample ["jmag"; "hats"]) tt
           (sample_table ["jmag"; "hats"]) sample_fits_columns eq_refl
           ltac:(by_evaluation)).
Defined.

(** ** The keys of a record read from text *)

Lemma write_columns_dom objectlc columns :
  forall ind (d0 d : gmap string pyval),
    write_columns objectlc ind columns d0 = Ok d ->
    dom d = dom d0 ∪ list_to_set columns.
Proof.
  induction columns as [|c columns IH]; cbn [write_columns]; intros ind d0 d H.
  - injection H as <-. set_solver.
  - inv_bind H. inv_bind H. rewrite (IH _ _ _ H), dom_insert_L.
    set_solver.
Qed.

Lemma write_metadata_dom info filters columns (lcdict : gmap string pyval) :
  dom (write_metadata info filters columns lcdict)
  = list_to_set metadata_keys ∪ dom lcdict.
Proof.
  unfold write_metadata, metadata_keys. rewrite !dom_insert_L.
  cbn [list_to_set]. set_solver.
Qed.

(** X8. The keys of a record read from text are the column codes of the
    legend and the nine metadata keys, and nothing else; the codes are
    all codes of the schema table, so that no column shares its key with
    a metadata entry. The column list is under "cols": the key "columns"
    of the binary-table decoder is never present. *)
Theorem text_record_keys lcfname content lcdict :
  read_text_lc lcfname content = Ok lcdict ->
  exists columns,
    lcdict !! "cols" = Some (PyList (map PyStr columns)) /\
    dom lcdict = list_to_set columns ∪ list_to_set metadata_keys /\
    (forall col, col ∈ columns ->
       is_Some (TEXTLC_OUTPUT_COLUMNS !! col) /\ col ∉ metadata_keys) /\
    lcdict !! "columns" = None.
Proof.
  intros Hread.
  apply read_text_lc_Ok in Hread
    as (info & filters & columns & cd & _ & _ & Hw & Hd).
  assert (Hknown : forall col, col ∈ columns ->
            is_Some (TEXTLC_OUTPUT_COLUMNS !! col) /\ col ∉ metadata_keys).
  { intros col Hin.
    destruct (returned_column _ _ _ _ _ _ _ _ Hw Hd Hin)
      as (j & raw & spec & vs & _ & _ & _ & _ & Hspec & _).
    split; [by exists spec | by eapply schema_code_not_metadata]. }
  assert (Hdom : dom lcdict = list_to_set columns ∪ list_to_set metadata_keys).
  { subst lcdict. rewrite write_metadata_dom, (write_columns_dom _ _ _ _ _ Hw).
    set_solver. }
  exists columns. split; [subst; apply write_metadata_cols|].
  split; [exact Hdom|]. split; [exact Hknown|].
  apply not_elem_of_dom. rewrite Hdom. apply not_elem_of_union. split.
  - intros Hin%elem_of_list_to_set. destruct (Hknown _ Hin) as [[spec Hs] _].
    assert (Hnone : TEXTLC_OUTPUT_COLUMNS !! "columns" = None)
      by by_evaluation.
    congruence.
  - intros Hin%elem_of_list_to_set. revert Hin. not_in_list.
Qed.

Lemma text_record_keys_witness :
  exists columns,
    scenario_record !! "cols" = Some (PyList (map PyStr columns)) /\
    dom scenario_record = list_to_set columns ∪ list_to_set metadata_keys /\
    (forall col, col ∈ columns ->
       is_Some (TEXTLC_OUTPUT_COLUMNS !! col) /\ col ∉ metadata_keys) /\
    scenario_record !! "columns" = None.
Proof.
  apply (text_record_keys "HAT-123-4567.hatlc" scenario_content).
  by_evaluation.
Defined.

(** ** The shape of the transposition *)

Lemma nth_fields_is_Some {A : Type} (rows : list (list A)) (i : nat) :
  is_Some (nth_fields i rows) <->
  forall row, row ∈ rows -> (i < length row)%nat.
Proof.
  induction rows as [|r rows IH]; cbn [nth_fields].
  - split; [|by eexists]. intros _ row Hrow. by apply elem_of_nil in Hrow.
  - split.
    + intros Hs row Hrow.
      destruct (r !! i) as [x|] eqn:Ex; [|by destruct Hs].
      destruct (nth_fields i rows) as [xs|] eqn:Exs; [|by destruct Hs].
      apply elem_of_cons in Hrow as [->|Hrow].
      * by apply lookup_lt_Some in Ex.
      * apply IH; [by eexists | done].
    + intros Hall.
      destruct (lookup_lt_is_Some_2 r i) as [x ->]; [apply Hall; by left|].
      destruct (proj2 IH) as [xs ->]; [|by eexists].
      intros row Hrow. apply Hall. by right.
Qed.

(** X9. Line 253. Every tuple of the transposition has one element for each
    row; when there is a row, there are as many tuples as the shortest row
    has fields; and the element [k] of the tuple [i] is the field [i] of
    the row [k]. *)
Theorem transposition_shape {A : Type} (rows : list (list A)) :
  (forall col, col ∈ zip_star rows -> length col = length rows) /\
  (rows <> [] ->
   forall i, (i < length (zip_star rows))%nat <->
             forall row, row ∈ rows -> (i < length row)%nat) /\
  (forall i col k row,
     zip_star rows !! i = Some col -> rows !! k = Some row ->
     col !! k = row !! i).
Proof.
  split; [apply zip_star_column_length|]. split.
  - intros Hne i. rewrite <- lookup_lt_is_Some, zip_star_nth.
    destruct rows as [|r rows]; [done|]. apply nth_fields_is_Some.
  - intros i col k row Hi Hk. by destruct (zip_star_lookup _ _ _ _ _ Hi Hk).
Qed.

Lemma transposition_shape_witness :
  (1 < length (zip_star [["a"; "b"; "c"]; ["d"; "e"]]))%nat /\
  ~ (2 < length (zip_star [["a"; "b"; "c"]; ["d"; "e"]]))%nat.
Proof.
  destruct (transposition_shape [["a"; "b"; "c"]; ["d"; "e"]])
    as (_ & Hlen & _).
  split.
  - apply Hlen; [done|]. intros row Hrow.
    repeat (apply elem_of_cons in Hrow as [->|Hrow]; [simpl; lia|]).
    by apply elem_of_nil in Hrow.
  - intros Hlt.
    pose proof (proj1 (Hlen ltac:(done) 2%nat) Hlt ["d"; "e"]
                  ltac:(right; left)) as Hrow.
    simpl in Hrow. lia.
Defined.

(** ** Where the comment lines stand *)

Lemma filter_filter_same {A : Type} (f : A -> bool) (l : list A) :
  List.filter f (List.filter f l) = List.filter f l.
Proof.
  induction l as [|x l IH]; [done|]. cbn [List.filter].
  destruct (f x) eqn:E; [|done]. cbn [List.filter]. by rewrite E, IH.
Qed.

Lemma filter_filter_negb {A : Type} (f : A -> bool) (l : list A) :
  List.filter f (List.filter (fun x => negb (f x)) l) = [] /\
  List.filter (fun x => negb (f x)) (List.filter f l) = [].
Proof.
  induction l as [|x l [IH1 IH2]]; [done|]. cbn [List.filter].
  destruct (f x) eqn:E; cbn [negb List.filter]; rewrite ?E; cbn [negb]; done.
Qed.

(** X10. The decoder looks at the comment lines and at the other lines
    separately: the result is the one for the file with all the comment
    lines first, in their order, and the other lines after them. A
    comment line between two data lines is a metadata line like any
    other. *)
Theorem comment_lines_anywhere lcfname (lcflines : list string) :
  decode_lines lcfname lcflines
  = decode_lines lcfname
      (List.filter is_comment lcflines
       ++ List.filter (fun x => negb (is_comment x)) lcflines).
Proof.
  unfold decode_lines. f_equal.
  - f_equal. unfold data_lines. rewrite List.filter_app. f_equal.
    rewrite (proj2 (filter_filter_negb is_comment lcflines)).
    by rewrite filter_filter_same.
  - unfold metadata_lines. rewrite List.filter_app.
    rewrite filter_filter_same.
    rewrite (proj1 (filter_filter_negb is_comment lcflines)).
    by rewrite app_nil_r.
Qed.



(** ** What is printed *)

(** [read_hatlc] prints at most one line: the message that names the
    pyfits module, for a name with ".fits" when [HAVEPYFITS] is false and
    the file opens; it then returns [None]. A call that raises or returns
    a record prints nothing. *)
Lemma read_hatlc_output {handle : Type}
    (open_stream : compression -> string -> result handle)
    (read_decode : handle -> result string)
    (pyfits_open : handle -> result hdulist)
    (HAVEPYFITS : bool) (hatlc : string) :
  fst (read_hatlc open_stream read_decode pyfits_open HAVEPYFITS hatlc) = []
  \/
  (read_hatlc open_stream read_decode pyfits_open HAVEPYFITS hatlc
     = ([cant_read_message (Str.basename hatlc)], Ok None) /\
   HAVEPYFITS = false /\
   Str.contains ".fits" (Str.basename hatlc) = true /\
   returns (open_stream (sniff_compression (Str.basename hatlc)) hatlc) = true).
Proof.
  unfold read_hatlc.
  destruct (open_stream _ hatlc) as [lcf|e]; [|by left].
  destruct (Str.contains ".fits" _), HAVEPYFITS; cbn [andb negb].
  - by left.
  - by right.
  - destruct (_ || _); by left.
  - destruct (_ || _); by left.
Qed.

(** X12. In a program that imports the module and calls [read_hatlc], the
    message of line 234 is never printed: the only output there can be is
    the message of the import, and then the import has failed. *)
Theorem cant_read_message_never_printed {handle : Type}
    (open_stream : compression -> string -> result handle)
    (read_decode : handle -> result string)
    (pyfits_open : handle -> result hdulist)
    (pyfits_installed astropy_installed : bool) (hatlc : string) :
  (forall lcfname,
     cant_read_message lcfname ∉
       fst (import_and_read open_stream read_decode pyfits_open
              pyfits_installed astropy_installed hatlc)) /\
  (fst (import_and_read open_stream read_decode pyfits_open
          pyfits_installed astropy_installed hatlc) = []
   \/ import_and_read open_stream read_decode pyfits_open
        pyfits_installed astropy_installed hatlc
      = ([no_pyfits_message], Raise ImportError)).
Proof.
  assert (Hout : fst (import_and_read open_stream read_decode pyfits_open
                        pyfits_installed astropy_installed hatlc) = []
                 \/ import_and_read open_stream read_decode pyfits_open
                      pyfits_installed astropy_installed hatlc
                    = ([no_pyfits_message], Raise ImportError)).
  { unfold import_and_read, import_oldhatlc.
    destruct pyfits_installed, astropy_installed; cbn [negb]; try (by right);
      left;
      destruct (read_hatlc_output open_stream read_decode pyfits_open true
                  hatlc) as [Hnil|(_ & Hfalse & _)]; try discriminate;
      destruct (read_hatlc _ _ _ true hatlc) as [printed r];
      cbn [fst] in *; by rewrite Hnil. }
  split; [|exact Hout].
  intros lcfname Hin. destruct Hout as [Hnil|Hfail].
  - rewrite Hnil in Hin. by apply elem_of_nil in Hin.
  - rewrite Hfail in Hin. cbn [fst] in Hin.
    apply list_elem_of_singleton in Hin. discriminate Hin.
Qed.

(** ** What the result depends on *)

Lemma contains_slash_cons (c : ascii) (s : string) :
  Str.contains "/" (String c s) = Ascii.eqb c "/" || Str.contains "/" s.
Proof.
  cbn [Str.contains String.prefix].
  destruct (ascii_dec "/" c) as [<-|Hne].
  - by destruct s.
  - by rewrite (proj2 (Ascii.eqb_neq c "/")) by congruence.
Qed.

Lemma after_last_slash_none (cand p : string) :
  Str.contains "/" p = false -> Str.after_last_slash cand p = cand.
Proof.
  revert cand. induction p as [|c p IH]; intros cand; [done|].
  rewrite contains_slash_cons. intros [Hc Hp]%orb_false_iff.
  cbn [Str.after_last_slash]. rewrite Hc. by apply IH.
Qed.

Lemma basename_of_joined (dir name : string) :
  Str.contains "/" name = false ->
  Str.basename (dir +:+ "/" +:+ name) = name.
Proof.
  intros Hname. unfold Str.basename.
  generalize (dir +:+ "/" +:+ name) at 1. induction dir as [|c dir IH].
  - intros cand. change ("" +:+ "/" +:+ name) with (String "/" name).
    cbn [Str.after_last_slash]. cbn. by apply after_last_slash_none.
  - intros cand. rewrite append_cons. cbn [Str.after_last_slash].
    destruct (Ascii.eqb c "/"); apply IH.
Qed.

(** X13. Only the last component of the path is looked at: reading
    [dir/name] is reading [name] in a file system where every path opens
    the file [dir/name]. A directory called "runs.fits" or "old.gz" has
    no influence on the decoder or on the decompressor. *)
Theorem directory_is_ignored {handle : Type}
    (open_stream : compression -> string -> result handle)
    (read_decode : handle -> result string)
    (pyfits_open : handle -> result hdulist)
    (HAVEPYFITS : bool) (dir name : string) :
  Str.contains "/" name = false ->
  Str.basename (dir +:+ "/" +:+ name) = name /\
  read_hatlc open_stream read_decode pyfits_open HAVEPYFITS
    (dir +:+ "/" +:+ name)
  = read_hatlc (fun c _ => open_stream c (dir +:+ "/" +:+ name))
      read_decode pyfits_open HAVEPYFITS name.
Proof.
  intros Hname. split; [by apply basename_of_joined|].
  unfold read_hatlc. rewrite (basename_of_joined dir name Hname).
  assert (E : Str.basename name = name).
  { unfold Str.basename. by apply after_last_slash_none. }
  by rewrite E.
Qed.

Lemma directory_is_ignored_witness :
  read_one_file scenario_content true "/data/runs.fits/old.gz/lc.hatlc"
  = read_hatlc (fun c _ => open_one c "/data/runs.fits/old.gz/lc.hatlc")
      (read_one scenario_content) fits_one true "lc.hatlc".
Proof.
  apply (directory_is_ignored open_one (read_one scenario_content) fits_one
           true "/data/runs.fits/old.gz" "lc.hatlc").
  reflexivity.
Defined.

(** X14. A name without ".fits" is read in the same way whether a FITS
    library is there or not and whatever that library would do; a name
    with ".fits" is never read as text, whatever the file holds. *)
Theorem formats_do_not_interfere {handle : Type}
    (open_stream : compression -> string -> result handle)
    (read_decode read_decode' : handle -> result string)
    (pyfits_open pyfits_open' : handle -> result hdulist)
    (HAVEPYFITS HAVEPYFITS' : bool) (hatlc : string) :
  (Str.contains ".fits" (Str.basename hatlc) = false ->
   read_hatlc open_stream read_decode pyfits_open HAVEPYFITS hatlc
   = read_hatlc open_stream read_decode pyfits_open' HAVEPYFITS' hatlc) /\
  (Str.contains ".fits" (Str.basename hatlc) = true ->
   read_hatlc open_stream read_decode pyfits_open HAVEPYFITS hatlc
   = read_hatlc open_stream read_decode' pyfits_open HAVEPYFITS hatlc).
Proof.
  split; intros Hfits; unfold read_hatlc;
    destruct (open_stream _ hatlc) as [lcf|e]; try done; rewrite Hfits.
  - done.
  - by destruct HAVEPYFITS.
Qed.

Lemma formats_do_not_interfere_witness :
  read_hatlc open_one (read_one scenario_content) fits_one true
    "HAT-123-4567.hatlc"
  = read_hatlc open_one (read_one scenario_content) (fits_sample []) false
      "HAT-123-4567.hatlc"
  /\
  read_hatlc open_one (read_one scenario_content) (fits_sample []) true
    "HAT-123-4567.fits"
  = read_hatlc open_one (read_one two_filter_content) (fits_sample []) true
      "HAT-123-4567.fits".
Proof.
  split.
  - apply (proj1 (formats_do_not_interfere open_one
                    (read_one scenario_content) (read_one scenario_content)
                    fits_one (fits_sample []) true false
                    "HAT-123-4567.hatlc")).
    reflexivity.
  - apply (proj2 (formats_do_not_interfere open_one
                    (read_one scenario_content) (read_one two_filter_content)
                    (fits_sample []) (fits_sample []) true true
                    "HAT-123-4567.fits")).
    reflexivity.
Defined.

(** ** The schema table *)

Lemma schema_entries_checked :
  map_Forall (fun _ spec => entry_consistent spec = true) TEXTLC_OUTPUT_COLUMNS.
Proof. apply (bool_decide_unpack _). vm_compute. exact I. Qed.

Lemma entry_consistent_cases spec :
  entry_consistent spec = true ->
  (coerce spec = to_float /\
   (fits_code spec = "D" \/ fits_code spec = "E") /\
   text_format spec <> "%s") \/
  (coerce spec = to_int /\ fits_code spec = "I" /\ text_format spec = "%s") \/
  (coerce spec = to_str /\ last_char (fits_code spec) = Some "A"%char /\
   text_format spec = "%s").
Proof.
  unfold entry_consistent. destruct (coerce spec); intros H.
  - left. apply andb_true_iff in H as [[Hc Hf]%andb_true_iff _].
    apply negb_true_iff, String.eqb_neq in Hf.
    apply orb_true_iff in Hc as [Hc|Hc]; apply String.eqb_eq in Hc; auto.
  - right. right. apply andb_true_iff in H as [Hc Hf].
    apply bool_decide_eq_true in Hc. apply String.eqb_eq in Hf. auto.
  - right. left. apply andb_true_iff in H as [Hc Hf].
    apply String.eqb_eq in Hc, Hf. auto.
Qed.

(** X15. In every entry of [TEXTLC_OUTPUT_COLUMNS] the coercion agrees with
    the binary type code and with the text format: the coercion is
    [float] exactly for the codes "D" and "E" and exactly for the formats
    other than "%s", and it is [int] exactly for the code "I". The table
    has 64 entries. *)
Theorem schema_entries_consistent col spec :
  TEXTLC_OUTPUT_COLUMNS !! col = Some spec ->
  (coerce spec = to_float <-> fits_code spec = "D" \/ fits_code spec = "E") /\
  (coerce spec = to_int <-> fits_code spec = "I") /\
  (coerce spec = to_float <-> text_format spec <> "%s") /\
  size TEXTLC_OUTPUT_COLUMNS = 64%nat.
Proof.
  intros Hspec. pose proof (schema_entries_checked col spec Hspec) as Hc.
  cbv beta in Hc.
  destruct (entry_consistent_cases spec Hc)
    as [(Hco & Hcode & Hfmt)|[(Hco & Hcode & Hfmt)|(Hco & Hlast & Hfmt)]];
    rewrite Hco.
  - split; [tauto|]. split; [|split; [tauto | by_evaluation]].
    split; [discriminate|]. intros HI.
    destruct Hcode as [Hcode|Hcode]; rewrite Hcode in HI; discriminate.
  - split; [|split; [tauto|split; [|by_evaluation]]].
    + split; [discriminate|]. rewrite Hcode. intros [?|?]; discriminate.
    + split; [discriminate | congruence].
  - split; [|split; [|split; [|by_evaluation]]].
    + split; [discriminate|].
      intros [Hcode|Hcode]; rewrite Hcode in Hlast; discriminate.
    + split; [discriminate|].
      intros Hcode; rewrite Hcode in Hlast; discriminate.
    + split; [discriminate | congruence].
Qed.

Lemma schema_entries_consistent_witness :
  (coerce (Build_colspec "CCD taking this LC point " "%s" "I" to_int) = to_int
   <-> fits_code (Build_colspec "CCD taking this LC point " "%s" "I" to_int)
       = "I").
Proof.
  apply (schema_entries_consistent "CCD"
           (Build_colspec "CCD taking this LC point " "%s" "I" to_int)).
  by_evaluation.
Defined.

(** ** The header fields of a record read from text *)

Lemma rstrip_keeps (f : ascii -> bool) (s : string) (z : ascii) :
  last_char s = Some z -> f z = false -> Str.rstrip f s = s.
Proof.
  induction s as [|c s IH]; [done|]. intros Hlast Hz.
  cbn [Str.rstrip]. destruct s as [|c' s'].
  - cbn [last_char] in Hlast. injection Hlast as ->. cbn. by rewrite Hz.
  - rewrite (IH Hlast Hz). reflexivity.
Qed.

(** When does line 301 give the identifier that follows "2MASS J"? *)
Lemma strip_2MASS_exact (a z : ascii) (rest : string) :
  Str.mem a "2MASS J" = false ->
  last_char (String a rest) = Some z ->
  Str.mem z "2MASS J" = false ->
  Str.strip_chars "2MASS J" ("2MASS J" +:+ String a rest) = String a rest.
Proof.
  intros Ha Hlast Hz. unfold Str.strip_chars, Str.strip_with.
  change ("2MASS J" +:+ String a rest)
    with (String "2" (String "M" (String "A" (String "S" (String "S"
            (String " " (String "J" (String a rest)))))))).
  cbn [Str.lstrip].
  change (Str.mem "2" "2MASS J") with true.
  change (Str.mem "M" "2MASS J") with true.
  change (Str.mem "A" "2MASS J") with true.
  change (Str.mem "S" "2MASS J") with true.
  change (Str.mem " " "2MASS J") with true.
  change (Str.mem "J" "2MASS J") with true.
  cbv iota. rewrite Ha. by apply (rstrip_keeps _ _ z).
Qed.

(** X16. The cross-match identifier is exact for the identifiers that neither
    begin nor end with one of the characters "2", "M", "A", "S", " " and
    "J": when the second token of metadata line 0 is "2MASS J" followed
    by such an identifier, the record holds that identifier. *)
Theorem twomassid_exact lcfname content lcdict line0 first a z rest :
  read_text_lc lcfname content = Ok lcdict ->
  metadata_lines (Str.split LF content) !! 0%nat = Some line0 ->
  Str.split " - " line0 = [first; "2MASS J" +:+ String a rest] ->
  Str.mem a "2MASS J" = false ->
  last_char (String a rest) = Some z ->
  Str.mem z "2MASS J" = false ->
  lcdict !! "twomassid" = Some (Scalar (PyStr (String a rest))).
Proof.
  intros Hread H0 Hsplit Ha Hlast Hz.
  apply read_text_lc_Ok in Hread
    as (info & filters & columns & cd & Hinfo & _ & _ & ->).
  apply parse_objectinfo_Ok in Hinfo
    as (line0' & _ & _ & H0' & Hsplit' & _).
  rewrite H0 in H0'. injection H0' as <-.
  rewrite Hsplit in Hsplit'. injection Hsplit' as _ Hid.
  rewrite write_metadata_twomassid, <- Hid.
  by rewrite (strip_2MASS_exact a z rest Ha Hlast Hz).
Qed.

Lemma twomassid_exact_witness :
  scenario_record !! "twomassid" = Some (Scalar (PyStr "01020304+0506070")).
Proof.
  apply (twomassid_exact "HAT-123-4567.hatlc" scenario_content
           scenario_record "HAT-123-4567 - 2MASS J01020304+0506070"
           "HAT-123-4567" "0" "0" "1020304+0506070").
  - by_evaluation.
  - by_evaluation.
  - by_evaluation.
  - reflexivity.
  - reflexivity.
  - reflexivity.
Defined.

Lemma write_metadata_entries info filters columns (lcdict : gmap string pyval) :
  write_metadata info filters columns lcdict !! "hatid"
    = Some (Scalar (PyStr (hatid info))) /\
  write_metadata info filters columns lcdict !! "ra"
    = Some (Scalar (PyFloat (ra info))) /\
  write_metadata info filters columns lcdict !! "dec"
    = Some (Scalar (PyFloat (dec info))) /\
  write_metadata info filters columns lcdict !! "mags"
    = Some (PyList (map PyFloat (mags info))) /\
  write_metadata info filters columns lcdict !! "hatstations"
    = Some (PyList (map PyStr (Str.split ", " (hatstations info)))).
Proof. unfold write_metadata. repeat split; lookup_inserted. Qed.

(** The two readers of a header value: the part after the last " = ",
    for a coordinate without the characters of " deg" at its ends, given
    to [float] (lines 262-271). *)
Lemma degrees_after_equals_Ok s f :
  degrees_after_equals s = Ok f ->
  exists t, getlast (Str.split " = " s) = Ok t /\
            Num.float (Str.strip_chars " deg" t) = Ok f.
Proof. unfold degrees_after_equals. intros H. by apply bind_Ok in H. Qed.

Lemma float_after_equals_Ok s f :
  float_after_equals s = Ok f ->
  exists t, getlast (Str.split " = " s) = Ok t /\ Num.float t = Ok f.
Proof. unfold float_after_equals. intros H. by apply bind_Ok in H. Qed.

(** X17. The header of a text file is read by position and its labels are
    not looked at: the object identifier is the first token of line 0;
    the coordinates are the two parts of line 1, each read by [float]
    from what follows its last " = ", stripped of the characters of " deg"
    at both ends; the magnitudes are always six, the parts of line 2 in
    their order, each read by [float] from what follows its last " = ";
    the stations are what follows the last ": " of line 4, cut at every
    ", ". *)
Theorem header_fields_positional lcfname content lcdict :
  read_text_lc lcfname content = Ok lcdict ->
  exists line0 line1 line2 line4 id2 r d v1 v2 v3 v4 v5 v6
         tr td t1 t2 t3 t4 t5 t6
         fr fd f1 f2 f3 f4 f5 f6 stations hid,
    metadata_lines (Str.split LF content) !! 0%nat = Some line0 /\
    metadata_lines (Str.split LF content) !! 1%nat = Some line1 /\
    metadata_lines (Str.split LF content) !! 2%nat = Some line2 /\
    metadata_lines (Str.split LF content) !! 4%nat = Some line4 /\
    Str.split " - " line0 = [hid; id2] /\
    lcdict !! "hatid" = Some (Scalar (PyStr hid)) /\
    Str.split ", " line1 = [r; d] /\
    getlast (Str.split " = " r) = Ok tr /\
    Num.float (Str.strip_chars " deg" tr) = Ok fr /\
    getlast (Str.split " = " d) = Ok td /\
    Num.float (Str.strip_chars " deg" td) = Ok fd /\
    lcdict !! "ra" = Some (Scalar (PyFloat fr)) /\
    lcdict !! "dec" = Some (Scalar (PyFloat fd)) /\
    Str.split ", " line2 = [v1; v2; v3; v4; v5; v6] /\
    getlast (Str.split " = " v1) = Ok t1 /\ Num.float t1 = Ok f1 /\
    getlast (Str.split " = " v2) = Ok t2 /\ Num.float t2 = Ok f2 /\
    getlast (Str.split " = " v3) = Ok t3 /\ Num.float t3 = Ok f3 /\
    getlast (Str.split " = " v4) = Ok t4 /\ Num.float t4 = Ok f4 /\
    getlast (Str.split " = " v5) = Ok t5 /\ Num.float t5 = Ok f5 /\
    getlast (Str.split " = " v6) = Ok t6 /\ Num.float t6 = Ok f6 /\
    lcdict !! "mags"
      = Some (PyList [PyFloat f1; PyFloat f2; PyFloat f3; PyFloat f4;
                      PyFloat f5; PyFloat f6]) /\
    getlast (Str.split ": " line4) = Ok stations /\
    lcdict !! "hatstations"
      = Some (PyList (map PyStr (Str.split ", " stations))).
Proof.
  intros Hread.
  apply read_text_lc_Ok in Hread
    as (info & filters & columns & cd & Hinfo & _ & _ & ->).
  apply parse_objectinfo_inv in Hinfo
    as (line0 & line1 & line2 & line3 & line4 & r & d & v1 & v2 & v3 & v4
        & v5 & v6 & f1 & f2 & f3 & f4 & f5 & f6 & H0 & Hs0 & H1 & Hs1 & Hr
        & Hd & H2 & Hs2 & Hf1 & Hf2 & Hf3 & Hf4 & Hf5 & Hf6 & Hmags & _ & H4
        & Hst).
  apply degrees_after_equals_Ok in Hr as (tr & Htr & Hr).
  apply degrees_after_equals_Ok in Hd as (td & Htd & Hd).
  apply float_after_equals_Ok in Hf1 as (t1 & Ht1 & Hf1).
  apply float_after_equals_Ok in Hf2 as (t2 & Ht2 & Hf2).
  apply float_after_equals_Ok in Hf3 as (t3 & Ht3 & Hf3).
  apply float_after_equals_Ok in Hf4 as (t4 & Ht4 & Hf4).
  apply float_after_equals_Ok in Hf5 as (t5 & Ht5 & Hf5).
  apply float_after_equals_Ok in Hf6 as (t6 & Ht6 & Hf6).
  destruct (write_metadata_entries info filters columns cd)
    as (Ehat & Era & Edec & Emags & Estations).
  rewrite Hmags in Emags.
  exists line0, line1, line2, line4, (twomassid info), r, d,
    v1, v2, v3, v4, v5, v6, tr, td, t1, t2, t3, t4, t5, t6,
    (ra info), (dec info), f1, f2, f3, f4, f5, f6,
    (hatstations info), (hatid info).
  repeat (split; [done|]). done.
Qed.

Lemma header_fields_positional_witness :
  exists line0 line1 line2 line4 id2 r d v1 v2 v3 v4 v5 v6
         tr td t1 t2 t3 t4 t5 t6
         fr fd f1 f2 f3 f4 f5 f6 stations hid,
    metadata_lines (Str.split LF scenario_content) !! 0%nat = Some line0 /\
    metadata_lines (Str.split LF scenario_content) !! 1%nat = Some line1 /\
    metadata_lines (Str.split LF scenario_content) !! 2%nat = Some line2 /\
    metadata_lines (Str.split LF scenario_content) !! 4%nat = Some line4 /\
    Str.split " - " line0 = [hid; id2] /\
    scenario_record !! "hatid" = Some (Scalar (PyStr hid)) /\
    Str.split ", " line1 = [r; d] /\
    getlast (Str.split " = " r) = Ok tr /\
    Num.float (Str.strip_chars " deg" tr) = Ok fr /\
    getlast (Str.split " = " d) = Ok td /\
    Num.float (Str.strip_chars " deg" td) = Ok fd /\
    scenario_record !! "ra" = Some (Scalar (PyFloat fr)) /\
    scenario_record !! "dec" = Some (Scalar (PyFloat fd)) /\
    Str.split ", " line2 = [v1; v2; v3; v4; v5; v6] /\
    getlast (Str.split " = " v1) = Ok t1 /\ Num.float t1 = Ok f1 /\
    getlast (Str.split " = " v2) = Ok t2 /\ Num.float t2 = Ok f2 /\
    getlast (Str.split " = " v3) = Ok t3 /\ Num.float t3 = Ok f3 /\
    getlast (Str.split " = " v4) = Ok t4 /\ Num.float t4 = Ok f4 /\
    getlast (Str.split " = " v5) = Ok t5 /\ Num.float t5 = Ok f5 /\
    getlast (Str.split " = " v6) = Ok t6 /\ Num.float t6 = Ok f6 /\
    scenario_record !! "mags"
      = Some (PyList [PyFloat f1; PyFloat f2; PyFloat f3; PyFloat f4;
                      PyFloat f5; PyFloat f6]) /\
    getlast (Str.split ": " line4) = Ok stations /\
    scenario_record !! "hatstations"
      = Some (PyList (map PyStr (Str.split ", " stations))).
Proof.
  apply (header_fields_positional "HAT-123-4567.hatlc" scenario_content).
  by_evaluation.
Defined.

(** ** The order of the detections *)

(** X18. The detections keep the order of the file. The entry of a column
    of a returned record is [numpy.array] applied to a list, and the
    element [k] of that list comes from the data line [k] of the file: it
    is the field [x] of that line at the position of the column's last
    mention in the legend, as [float(x)], [str(x)] or [int(x)], the
    function that the schema table registers for the column. *)
Theorem column_values_in_file_order lcfname content lcdict columns col j k line :
  read_text_lc lcfname content = Ok lcdict ->
  lcdict !! "cols" = Some (PyList (map PyStr columns)) ->
  columns !! j = Some col ->
  (forall j', (j < j')%nat -> columns !! j' <> Some col) ->
  data_lines (Str.split LF content) !! k = Some line ->
  exists x spec v vs,
    (if Str.contains ".csv" lcfname then Str.split "," line
     else Str.split_ws line) !! j = Some x /\
    TEXTLC_OUTPUT_COLUMNS !! col = Some spec /\
    match coerce spec with
    | to_float => exists f, Num.float x = Ok f /\ v = PyFloat f
    | to_str => v = PyStr x
    | to_int => exists z, Num.int x = Ok z /\ v = PyInt z
    end /\
    lcdict !! col = Some (NpArray vs) /\
    vs !! k = Some v.
Proof.
  intros Hread Hcols Hj Hlast Hk.
  apply read_text_lc_Ok in Hread
    as (info & filters & columns' & cd & _ & _ & Hw & Hd).
  assert (columns' = columns) as ->.
  { subst lcdict. rewrite write_metadata_cols in Hcols.
    injection Hcols as Hmap. revert Hmap. clear.
    revert columns. induction columns' as [|c cs IH]; intros [|c' cs'] H;
      try discriminate; [done|].
    injection H as -> H. f_equal. by apply IH. }
  destruct (write_columns_Ok _ _ _ _ _ Hw) as [Hall _].
  destruct (Hall j col Hj) as (raw & vs & Hraw & Hvs & Hkept).
  cbn [Nat.add] in Hraw.
  assert (Hrow : split_rows lcfname (data_lines (Str.split LF content)) !! k
                 = Some (if Str.contains ".csv" lcfname
                         then Str.split "," line else Str.split_ws line)).
  { unfold split_rows. destruct (Str.contains ".csv" lcfname);
      by rewrite list_lookup_fmap, Hk. }
  destruct (zip_star_lookup _ _ _ _ _ Hraw Hrow) as [Hfield Hlt].
  destruct (lookup_lt_is_Some_2 _ _ Hlt) as [field Hf].
  rewrite Hf in Hfield.
  destruct (mapM_Ok_lookup _ _ _ Hvs _ _ Hfield) as (v & Hv & Hco).
  assert (Hne : raw <> []) by (intros ->; discriminate Hfield).
  destruct (schema_coerce_known _ _ _ Hne Hvs) as (spec & Hspec & _).
  exists field, spec, v, vs. split; [done|]. split; [done|]. split.
  - unfold schema_coerce in Hco. rewrite Hspec in Hco.
    by apply apply_coercion_Ok.
  - split; [|done]. subst lcdict.
    rewrite write_metadata_other by (by eapply schema_code_not_metadata).
    by apply Hkept.
Qed.

Lemma column_values_in_file_order_witness :
  exists x spec v vs,
    (if Str.contains ".csv" "HAT-123-4567.hatlc"
     then Str.split "," "2456000.6 12.355"
     else Str.split_ws "2456000.6 12.355") !! 1%nat = Some x /\
    TEXTLC_OUTPUT_COLUMNS !! "IM1" = Some spec /\
    match coerce spec with
    | to_float => exists f, Num.float x = Ok f /\ v = PyFloat f
    | to_str => v = PyStr x
    | to_int => exists z, Num.int x = Ok z /\ v = PyInt z
    end /\
    scenario_record !! "IM1" = Some (NpArray vs) /\
    vs !! 1%nat = Some v.
Proof.
  apply (column_values_in_file_order "HAT-123-4567.hatlc" scenario_content
           scenario_record ["BJD"; "IM1"] "IM1" 1 1 "2456000.6 12.355").
  - by_evaluation.
  - by_evaluation.
  - reflexivity.
  - intros [|[|[|j']]] Hlt; try lia; discriminate.
  - by_evaluation.
Defined.

(** ** Line ends *)

Lemma split_from_nonempty sep skip s : Str.split_from sep skip s <> [].
Proof.
  revert skip. induction s as [|c s IH]; intros skip; [done|].
  cbn [Str.split_from]. destruct skip as [|k]; [|apply IH].
  destruct (String.prefix sep (String c s)); [done|].
  by destruct (Str.split_from sep 0 s).
Qed.

Lemma split_LF_final (s : string) :
  Str.split LF (s +:+ LF) = Str.split LF s ++ [EmptyString].
Proof.
  unfold Str.split. induction s as [|c s IH]; [reflexivity|].
  rewrite append_cons. cbn [Str.split_from].
  rewrite !prefix_LF_cons. destruct (Ascii.eqb c "010").
  - cbn [LF String.length Nat.sub]. by rewrite IH.
  - rewrite IH.
    pose proof (split_from_nonempty LF 0 s) as Hne.
    by destruct (Str.split_from LF 0 s).
Qed.

(** X19. A line feed more or less at the end of the file makes no difference:
    the content with a final line feed is decoded like the content
    without it. *)
Theorem final_line_feed_ignored lcfname content :
  read_text_lc lcfname (content +:+ LF) = read_text_lc lcfname content.
Proof.
  unfold read_text_lc, decode_lines. rewrite split_LF_final.
  by rewrite data_lines_app, metadata_lines_app, !app_nil_r.
Qed.

Section OneMoreCharacter.

Variable f : ascii -> bool.
Variable z : ascii.

Lemma last_char_app (y : string) : last_char (y +:+ String z "") = Some z.
Proof.
  induction y as [|c y IH]; [reflexivity|]. rewrite append_cons.
  cbn [last_char]. destruct (y +:+ String z "") eqn:E; [|exact IH].
  by destruct y.
Qed.

Lemma rstrip_no_match (s : string) :
  (forall c, last_char s = Some c -> f c = false) -> Str.rstrip f s = s.
Proof.
  intros H. destruct (last_char s) as [c|] eqn:E.
  - apply (rstrip_keeps f s c E). by apply H.
  - destruct s as [|c s]; [done|]. exfalso. clear H.
    revert c E. induction s as [|c' s IH]; intros c E; [discriminate|].
    by apply (IH c').
Qed.

Lemma lstrip_app_kept (y : string) :
  f z = false ->
  Str.lstrip f (y +:+ String z "") = Str.lstrip f y +:+ String z "".
Proof.
  intros Hz. induction y as [|c y IH].
  - change ("" +:+ String z "") with (String z ""). cbn [Str.lstrip].
    by rewrite Hz.
  - rewrite append_cons. cbn [Str.lstrip]. destruct (f c); [exact IH|].
    by rewrite append_cons.
Qed.

Lemma lstrip_app_dropped (y : string) :
  f z = true ->
  Str.lstrip f (y +:+ String z "") =
  match Str.lstrip f y with
  | EmptyString => EmptyString
  | w => w +:+ String z ""
  end.
Proof.
  intros Hz. induction y as [|c y IH].
  - change ("" +:+ String z "") with (String z ""). cbn [Str.lstrip].
    by rewrite Hz.
  - rewrite append_cons. cbn [Str.lstrip]. destruct (f c); [exact IH|].
    by rewrite append_cons.
Qed.

Lemma rstrip_app_dropped (w : string) :
  f z = true -> Str.rstrip f (w +:+ String z "") = Str.rstrip f w.
Proof.
  intros Hz. induction w as [|c w IH].
  - change ("" +:+ String z "") with (String z ""). cbn [Str.rstrip].
    by rewrite Hz.
  - rewrite append_cons. cbn [Str.rstrip]. by rewrite IH.
Qed.

Lemma strip_with_app_dropped (y : string) :
  f z = true ->
  Str.strip_with f (y +:+ String z "") = Str.strip_with f y.
Proof.
  intros Hz. unfold Str.strip_with. rewrite (lstrip_app_dropped y Hz).
  destruct (Str.lstrip f y) as [|c w]; [done|].
  by apply rstrip_app_dropped.
Qed.

End OneMoreCharacter.

Lemma split_ws_from_CR (cur : option string) (x : string) :
  Str.split_ws_from cur (with_CR x) = Str.split_ws_from cur x.
Proof.
  unfold with_CR. revert cur. induction x as [|c x IH]; intros cur.
  - change ("" +:+ CR) with (String "013" ""). cbn. by rewrite app_nil_r.
  - rewrite append_cons. cbn [Str.split_ws_from].
    destruct (Str.is_space c); by rewrite IH.
Qed.

Lemma is_comment_with_CR (x : string) : is_comment (with_CR x) = is_comment x.
Proof.
  destruct x as [|c x]; [reflexivity|]. unfold with_CR. rewrite append_cons.
  unfold is_comment, Str.startswith. cbn [String.prefix].
  destruct (ascii_dec "#" c); [|done].
  generalize (x +:+ CR). intros s. by destruct x, s.
Qed.

Lemma len_with_CR (x : string) : Str.len (with_CR x) = S (Str.len x).
Proof.
  unfold with_CR, Str.len. induction x as [|c x IH]; [reflexivity|].
  rewrite append_cons. cbn [String.length]. by rewrite IH.
Qed.

Lemma stripped_with_CR (x : string) :
  last_char (Str.lstrip (fun c => Str.mem c "#") x) <> Some "#"%char ->
  Str.strip (Str.strip_chars "#" (with_CR x))
  = Str.strip (Str.strip_chars "#" x).
Proof.
  intros Hlast. unfold with_CR, CR.
  change (Str.strip_chars "#" (x +:+ String "013" ""))
    with (Str.rstrip (fun c => Str.mem c "#")
            (Str.lstrip (fun c => Str.mem c "#") (x +:+ String "013" ""))).
  change (Str.strip_chars "#" x)
    with (Str.rstrip (fun c => Str.mem c "#")
            (Str.lstrip (fun c => Str.mem c "#") x)).
  rewrite (lstrip_app_kept _ "013" x eq_refl).
  set (y := Str.lstrip (fun c => Str.mem c "#") x) in *.
  rewrite (rstrip_no_match (fun c => Str.mem c "#") (y +:+ String "013" "")).
  - rewrite (rstrip_no_match (fun c => Str.mem c "#") y).
    + by apply (strip_with_app_dropped Str.is_space "013" y).
    + intros c Hc. cbn [Str.mem]. rewrite orb_false_r.
      apply Ascii.eqb_neq. intros ->. by apply Hlast.
  - intros c Hc. rewrite last_char_app in Hc. by injection Hc as <-.
Qed.

(** X20. Carriage returns before the line feeds do no harm to a
    whitespace-delimited file: when no line other than a comment has
    exactly one character and no comment line, once its leading "#" are
    removed, ends with "#", the file whose lines all end with a carriage
    return is decoded like the file without them. *)
Theorem carriage_returns_ignored lcfname (lines : list string) :
  Str.contains ".csv" lcfname = false ->
  Forall (fun x => is_comment x = false -> Str.len x <> 1%nat) lines ->
  Forall (fun x => is_comment x = true ->
            last_char (Str.lstrip (fun c => Str.mem c "#") x) <> Some "#"%char)
         lines ->
  decode_lines lcfname (map with_CR lines) = decode_lines lcfname lines.
Proof.
  intros Hcsv Hdata Hmeta. unfold decode_lines, split_rows. rewrite Hcsv.
  f_equal.
  - clear Hmeta. induction lines as [|x lines IH]; [done|].
    apply Forall_cons in Hdata as [Hx Hdata].
    cbn [map].
    change (with_CR x :: map with_CR lines)
      with ([with_CR x] ++ map with_CR lines).
    change (x :: lines) with ([x] ++ lines).
    rewrite !data_lines_app, !map_app, (IH Hdata). f_equal.
    unfold data_lines. cbn [List.filter].
    rewrite is_comment_with_CR. destruct (is_comment x) eqn:Ec; [done|].
    cbn [negb List.filter]. rewrite len_with_CR.
    specialize (Hx eq_refl).
    destruct (Nat.ltb_spec 1 (S (Str.len x))), (Nat.ltb_spec 1 (Str.len x));
      try lia; [|done].
    cbn [map]. unfold Str.split_ws. by rewrite split_ws_from_CR.
  - clear Hdata. induction lines as [|x lines IH]; [done|].
    apply Forall_cons in Hmeta as [Hx Hmeta].
    cbn [map].
    change (with_CR x :: map with_CR lines)
      with ([with_CR x] ++ map with_CR lines).
    change (x :: lines) with ([x] ++ lines).
    rewrite !metadata_lines_app, (IH Hmeta). f_equal.
    unfold metadata_lines. cbn [List.filter].
    rewrite is_comment_with_CR. destruct (is_comment x) eqn:Ec; [|done].
    cbn [map]. by rewrite (stripped_with_CR x (Hx eq_refl)).
Qed.

Lemma carriage_returns_ignored_witness :
  decode_lines "HAT-123-4567.hatlc" (map with_CR scenario_lines)
  = decode_lines "HAT-123-4567.hatlc" scenario_lines.
Proof.
  apply (carriage_returns_ignored "HAT-123-4567.hatlc" scenario_lines).
  - reflexivity.
  - repeat (constructor; [intros _; vm_compute; discriminate|]). constructor.
  - repeat (constructor; [intros _; vm_compute; discriminate|]). constructor.
Defined.
